(** * webSearch: the field extractor and the sheet store

    A shallow embedding of [src/webSearch.py]: the text extractor
    ([parse_text], [extract_optional_field]) and the spreadsheet operations
    ([ensure_columns_exist], [add_to_excel], [adjust_excel_format]).

    Modelling conventions.
    - A Python [str] is a [string]; every character is one code point below
      256, and [is_space] is [str.isspace] on that range.
    - Every pattern of the program is a literal followed by [(.+)]; the
      regular-expression search is modelled for that shape.
    - A [DataFrame] is column-major, as pandas stores it: a row count and an
      ordered list of named columns.  A cell is [None] (NaN, an empty Excel
      cell) or a text.
    - The Excel file is the table pandas reads from it, together with one
      formatting flag.  A table that was read from the file, with empty
      columns added, is written and read back as it is ([to_excel]).  A
      table that holds texts the program has made is written by
      [df_to_excel]: openpyxl refuses the control characters, and what
      pandas reads from the written workbook and what a refused write
      leaves behind are parameters of the model ([Excel]).
    - A raised exception is an [option]: [None] where the source raises. *)

From Stdlib Require Import Bool Arith List Ascii String Lia.
Import ListNotations.
Open Scope list_scope.
Open Scope string_scope.

(** ** Python strings *)

Module Str.

(** The line feed, the one character [.] refuses without [re.DOTALL]. *)
Definition LF : ascii := "010"%char.

Definition is_newline (c : ascii) : bool := Ascii.eqb c LF.

(** [str.isspace] on code points below 256: TAB..CR, FS..US, SPACE,
    NEL (U+0085) and NBSP (U+00A0). *)
Definition is_space (c : ascii) : bool :=
  let n := nat_of_ascii c in
  (Nat.leb 9 n && Nat.leb n 13) || (Nat.leb 28 n && Nat.leb n 32)
  || Nat.eqb n 133 || Nat.eqb n 160.

Fixpoint lstrip (s : string) : string :=
  match s with
  | EmptyString => EmptyString
  | String c s' => if is_space c then lstrip s' else s
  end.

Fixpoint rstrip (s : string) : string :=
  match s with
  | EmptyString => EmptyString
  | String c s' =>
      match rstrip s' with
      | EmptyString => if is_space c then EmptyString else String c EmptyString
      | r => String c r
      end
  end.

(** [s.strip()] *)
Definition strip (s : string) : string := rstrip (lstrip s).

(** A string with at least one character that is not white space. *)
Fixpoint has_ink (s : string) : bool :=
  match s with
  | EmptyString => false
  | String c s' => negb (is_space c) || has_ink s'
  end.

Fixpoint no_newline (s : string) : bool :=
  match s with
  | EmptyString => true
  | String c s' => negb (is_newline c) && no_newline s'
  end.

(** [text] with the literal [lit] removed from its front, when it starts
    with it. *)
Fixpoint drop_literal (lit text : string) : option string :=
  match lit, text with
  | EmptyString, _ => Some text
  | String _ _, EmptyString => None
  | String a lit', String b text' =>
      if Ascii.eqb a b then drop_literal lit' text' else None
  end.

(** Whether [pat] occurs in [text] as a substring (Python's [pat in text]). *)
Fixpoint occursb (pat text : string) : bool :=
  match drop_literal pat text with
  | Some _ => true
  | None =>
      match text with
      | EmptyString => false
      | String _ text' => occursb pat text'
      end
  end.

Definition occurs (pat text : string) : Prop :=
  exists pre post, text = pre ++ pat ++ post.

(** [text.partition(sep)] without the separator: what is before and what
    is after the first occurrence of [sep]; [None] where Python returns
    the text and two empty strings. *)
Fixpoint partition (sep text : string) : option (string * string) :=
  match drop_literal sep text with
  | Some post => Some (EmptyString, post)
  | None =>
      match text with
      | EmptyString => None
      | String a text' =>
          match partition sep text' with
          | Some (pre, post) => Some (String a pre, post)
          | None => None
          end
      end
  end.

(** Where a line ends: at the end of the text or before a line feed. *)
Definition at_line_end (post : string) : Prop :=
  post = "" \/ exists post', post = String LF post'.

(** The first occurrence of [pat] in [text] starts after [pre] and is
    followed by [post]. *)
Definition first_occurrence (pat text pre post : string) : Prop :=
  text = pre ++ pat ++ post /\
  forall pre' post', text = pre' ++ pat ++ post' ->
    String.length pre <= String.length pre'.

End Str.

(** ** Regular-expression search, for the patterns [lit(.+)] *)

Module Re.
Import Str.

(** What a greedy [.+] or [.*] takes without [re.DOTALL]: everything up to
    the next line feed. *)
Fixpoint dot_star (s : string) : string :=
  match s with
  | EmptyString => EmptyString
  | String c s' => if is_newline c then EmptyString else String c (dot_star s')
  end.

(** Group 1 of [(.+)] tried on [rest]: it needs one character, which
    without [dotall] must not be a line feed, and being greedy with nothing
    after it takes all it can. *)
Definition dot_plus (dotall : bool) (rest : string) : option string :=
  match rest with
  | EmptyString => None
  | String c _ =>
      if dotall then Some rest
      else if is_newline c then None else Some (dot_star rest)
  end.

(** The pattern [lit(.+)] tried at the very start of [text]. *)
Definition match_here (lit : string) (dotall : bool) (text : string)
  : option string :=
  match drop_literal lit text with
  | Some rest => dot_plus dotall rest
  | None => None
  end.

(** [re.search(lit + "(.+)", text, flags)]: the start positions are tried
    from left to right, the end of the text included; the result is group 1
    of the leftmost match, or [None] when there is no match. *)
Fixpoint search (lit : string) (dotall : bool) (text : string)
  : option string :=
  match match_here lit dotall text with
  | Some g => Some g
  | None =>
      match text with
      | EmptyString => None
      | String _ text' => search lit dotall text'
      end
  end.

(** The pattern [lit(.+)] matches [text] right after [pre]: the literal is
    there and is followed by a character [c] that [.] accepts. *)
Definition matches_at (lit : string) (dotall : bool) (text pre : string)
  (c : ascii) (rest : string) : Prop :=
  text = pre ++ lit ++ String c rest /\ (dotall = true \/ is_newline c = false).

(** Group 1 of a match whose [(.+)] starts at [rest]. *)
Definition group1 (dotall : bool) (rest : string) : string :=
  if dotall then rest else dot_star rest.

End Re.

(** ** The field extractor *)

(** A Python [dict] from field names to [str] or [None], in insertion order. *)
Definition dict := list (string * option string).

(** The value under the key [k] in the association list [l], the first
    one from the left. *)
Fixpoint assoc {A} (l : list (string * A)) (k : string) : option A :=
  match l with
  | [] => None
  | (k', v) :: l' => if String.eqb k' k then Some v else assoc l' k
  end.

(** [d[k]]; the outer [None] is the [KeyError]. *)
Definition dict_get (d : dict) (k : string) : option (option string) :=
  assoc d k.

(** [re.search(pattern, text, flags).group(1).strip()]; [None] is the
    [AttributeError] that [.group] raises on a failed search. *)
Definition search_group1_strip (lit : string) (dotall : bool) (text : string)
  : option string :=
  option_map Str.strip (Re.search lit dotall text).

(** [extract_optional_field]: the stripped group 1, or Python's [None]. *)
Definition extract_optional_field (lit : string) (text : string)
  : option string :=
  match Re.search lit false text with
  | Some g => Some (Str.strip g)
  | None => None
  end.

Definition bind {A B} (x : option A) (f : A -> option B) : option B :=
  match x with
  | Some a => f a
  | None => None
  end.

Notation "x <- e ;; k" := (bind e (fun x => k))
  (at level 61, e at next level, right associativity).

(** [parse_text]: the dictionary literal is evaluated entry by entry; the
    first mandatory search that fails raises, and the handler returns
    [None]. *)
Definition parse_text (input_text : string) : option dict :=
  name <- search_group1_strip "Company Name: " false input_text ;;
  phone <- search_group1_strip "Company Phone: " false input_text ;;
  let email := extract_optional_field "Company Email: " input_text in
  industry <- search_group1_strip "Industry: " false input_text ;;
  type <- search_group1_strip "Company Type: " false input_text ;;
  let activities := extract_optional_field "Import/Export Activities: " input_text in
  country <- search_group1_strip "Company Country: " false input_text ;;
  let website := extract_optional_field "Company Website: " input_text in
  operations <- search_group1_strip "Company Operations: " true input_text ;;
  Some [ ("Company Name", Some name);
         ("Company Phone", Some phone);
         ("Company Email", email);
         ("Industry", Some industry);
         ("Company Type", Some type);
         ("Import/Export Activities", activities);
         ("Company Country", Some country);
         ("Company Website", website);
         ("Operations", Some operations) ].

(** The label of each mandatory field, as it has to appear in the text. *)
Definition mandatory_labels : list string :=
  [ "Company Name"; "Company Phone"; "Industry"; "Company Type";
    "Company Country"; "Company Operations" ].

(** The mandatory fields read on one line: dictionary key and pattern
    literal.  ([Operations] is the sixth; it is read with [re.DOTALL].) *)
Definition line_fields : list (string * string) :=
  [ ("Company Name", "Company Name: ");
    ("Company Phone", "Company Phone: ");
    ("Industry", "Industry: ");
    ("Company Type", "Company Type: ");
    ("Company Country", "Company Country: ") ].

Definition nl : string := String Str.LF EmptyString.

Definition acme_text : string :=
  "Company Name: Acme" ++ nl ++
  "Company Phone: 555-1234" ++ nl ++
  "Industry: Tools" ++ nl ++
  "Company Type: LLC" ++ nl ++
  "Company Country: US" ++ nl ++
  "Company Operations: Makes anvils".

(** The six mandatory searches of [parse_text]: literal and [re.DOTALL]. *)
Definition mandatory_patterns : list (string * bool) :=
  [ ("Company Name: ", false); ("Company Phone: ", false);
    ("Industry: ", false); ("Company Type: ", false);
    ("Company Country: ", false); ("Company Operations: ", true) ].

(** No match of [lit(.+)] starts at one of the first [n] positions. *)
Fixpoint no_match_before (lit : string) (dotall : bool) (text : string)
  (n : nat) {struct n} : bool :=
  match n with
  | 0 => true
  | S n' =>
      match Re.match_here lit dotall text with
      | Some _ => false
      | None =>
          match text with
          | EmptyString => true
          | String _ text' => no_match_before lit dotall text' n'
          end
      end
  end.

(** The six labelled lines; the value on the name's line is two blanks. *)
Definition blank_name_text : string :=
  "Company Name:   " ++ nl ++
  "Company Phone: 555-1234" ++ nl ++
  "Industry: Tools" ++ nl ++
  "Company Type: LLC" ++ nl ++
  "Company Country: US" ++ nl ++
  "Company Operations: Makes anvils".

(** Blanks around the name, and line feeds after the operations. *)
Definition padded_text : string :=
  "Company Name:   Acme  " ++ nl ++
  "Company Phone: 555-1234" ++ nl ++
  "Industry: Tools" ++ nl ++
  "Company Type: LLC" ++ nl ++
  "Company Country: US" ++ nl ++
  "Company Operations: Makes anvils" ++ nl ++ "and hammers" ++ nl ++ nl.

Definition padded_record : dict :=
  [ ("Company Name", Some "Acme"); ("Company Phone", Some "555-1234");
    ("Company Email", None); ("Industry", Some "Tools");
    ("Company Type", Some "LLC"); ("Import/Export Activities", None);
    ("Company Country", Some "US"); ("Company Website", None);
    ("Operations", Some ("Makes anvils" ++ nl ++ "and hammers")) ].

(** The e-mail label twice, the first time with nothing after it on its
    line. *)
Definition repeated_label_text : string :=
  "Company Email: " ++ nl ++ "Company Email: sales@acme.example".

(** The e-mail label in the middle of a line, and once more later. *)
Definition midline_text : string :=
  "Contact (Company Email: sales@acme.example)" ++ nl ++
  "Company Email: old@acme.example".

(** The six labelled lines but for the industry. *)
Definition no_industry_text : string :=
  "Company Name: Acme" ++ nl ++
  "Company Phone: 555-1234" ++ nl ++
  "Company Type: LLC" ++ nl ++
  "Company Country: US" ++ nl ++
  "Company Operations: Makes anvils".

(** ** Tables *)

Local Open Scope list_scope.

(** A cell: a text, or [None] for NaN, which is how an empty Excel cell is
    read and how Python's [None] is written. *)
Abbreviation cell := (option string) (only parsing).

(** A [pandas.Series]: the cells of one column, from the first row on. *)
Abbreviation Series := (list (option string)) (only parsing).

(** A [pandas.DataFrame] with the default integer index: [nrows] rows, and
    the columns in order, each with its name and its cells. *)
Record DataFrame := mkDataFrame {
  nrows : nat;
  data : list (string * Series)
}.

(** Every column holds one cell per row. *)
Definition rectangular (df : DataFrame) : Prop :=
  Forall (fun kc => List.length (snd kc) = nrows df) (data df).

(** [df.columns] *)
Definition columns (df : DataFrame) : list string := map fst (data df).

Definition mem (k : string) (l : list string) : bool :=
  existsb (String.eqb k) l.

(** [df[column]]; [None] is the [KeyError]. *)
Definition getitem (df : DataFrame) (column : string) : option Series :=
  assoc (data df) column.

(** The cell of [column] in row [i]. *)
Definition cell_at (df : DataFrame) (column : string) (i : nat) : option cell :=
  match getitem df column with
  | Some s => nth_error s i
  | None => None
  end.

(** [df[column] = None]: a column of that name is overwritten in place, a
    new one is put after the last column. *)
Definition setitem_None (df : DataFrame) (column : string) : DataFrame :=
  let blank := repeat (@None string) (nrows df) in
  if mem column (columns df) then
    mkDataFrame (nrows df)
      (map (fun kc => if String.eqb (fst kc) column then (fst kc, blank) else kc)
           (data df))
  else mkDataFrame (nrows df) (data df ++ [(column, blank)]).

(** [pd.DataFrame(columns=names)] *)
Definition DataFrame_of_columns (names : list string) : DataFrame :=
  mkDataFrame 0 (map (fun c => (c, [])) names).

(** [pd.DataFrame([d])]: one row, one column per key, in key order. *)
Definition DataFrame_of_record (d : dict) : DataFrame :=
  mkDataFrame 1 (map (fun kv => (fst kv, [snd kv])) d).

(** [pd.concat([a, b], ignore_index=True)]: the rows of [a], then those of
    [b]; the columns of [a] in order, then those only [b] has; NaN where a
    frame lacks a column. *)
Definition concat (a b : DataFrame) : DataFrame :=
  mkDataFrame (nrows a + nrows b)
    (map (fun kc =>
            (fst kc,
             snd kc ++ match assoc (data b) (fst kc) with
                       | Some s => s
                       | None => repeat None (nrows b)
                       end))
         (data a)
     ++ map (fun kc => (fst kc, repeat None (nrows a) ++ snd kc))
            (filter (fun kc => negb (mem (fst kc) (columns a))) (data b))).

(** [(series == value)] at one cell: NaN equals nothing, [None] equals
    nothing, texts are compared character by character. *)
Definition cell_eqb (c : cell) (value : option string) : bool :=
  match c, value with
  | Some s, Some v => String.eqb s v
  | _, _ => false
  end.

(** ** The sheet store *)

(** What is at the selected path: nothing, a file that cannot be read as a
    workbook, or a workbook, with the table pandas reads from its active
    sheet and whether some cell has text wrapping switched on. *)
Inductive file :=
| Absent
| Unreadable
| Workbook (table : DataFrame) (wrap_text : bool).

Definition os_path_exists (f : file) : bool :=
  match f with
  | Absent => false
  | _ => true
  end.

(** [pd.read_excel(path, engine='openpyxl')]; [None] where it raises. *)
Definition read_excel (f : file) : option DataFrame :=
  match f with
  | Workbook df _ => Some df
  | _ => None
  end.

(** [df.to_excel(path, index=False, engine='openpyxl')] in
    [ensure_columns_exist], where the table is one pandas has read from a
    file, with empty columns added, or has no rows: the file is replaced by
    a new workbook, in which no cell wraps, and from which pandas reads
    that table. *)
Definition to_excel (df : DataFrame) : file := Workbook df false.

(** [adjust_excel_format]: every cell gets [Alignment(wrap_text=False)];
    the values stay.  [None] where [load_workbook] raises. *)
Definition adjust_excel_format (f : file) : option file :=
  match f with
  | Workbook df _ => Some (Workbook df false)
  | _ => None
  end.

Definition required_columns : list string :=
  [ "Company Name"; "Company Phone"; "Company Email";
    "Industry"; "Company Type"; "Import/Export Activities";
    "Company Country"; "Company Website"; "Operations" ].

(** The loop of [ensure_columns_exist] over the names [required]. *)
Definition add_missing (required : list string) (df : DataFrame) : DataFrame :=
  fold_left
    (fun df column =>
       if negb (mem column (columns df)) then setitem_None df column else df)
    required df.

(** [ensure_columns_exist]: the state of the file afterwards.  An exception
    while reading is reported in a dialog and the file is left as it is. *)
Definition ensure_columns_exist (f : file) : file :=
  if os_path_exists f then
    match read_excel f with
    | Some df => to_excel (add_missing required_columns df)
    | None => f
    end
  else to_excel (DataFrame_of_columns required_columns).

(** *** Writing texts the program has made *)

(** The characters openpyxl refuses in a cell ([ILLEGAL_CHARACTERS_RE]):
    the control characters but TAB, LF and CR. *)
Definition is_illegal (c : ascii) : bool :=
  let n := nat_of_ascii c in
  Nat.leb n 8 || (Nat.leb 11 n && Nat.leb n 12) || (Nat.leb 14 n && Nat.leb n 31).

(** A refused character among the first [n] characters of [s]. *)
Fixpoint has_illegal (n : nat) (s : string) : bool :=
  match s with
  | EmptyString => false
  | String c s' =>
      match n with
      | 0 => false
      | S n' => is_illegal c || has_illegal n' s'
      end
  end.

(** openpyxl's [check_string]: the text is cut to 32767 characters, and
    then must hold no refused character. *)
Definition legal_text (s : string) : bool :=
  negb (has_illegal (Nat.pow 2 15 - 1) s).

Definition legal_cell (c : cell) : bool :=
  match c with
  | Some s => legal_text s
  | None => true
  end.

(** openpyxl takes every header and every cell of the table. *)
Definition writable (df : DataFrame) : bool :=
  forallb (fun kc => legal_text (fst kc) && forallb legal_cell (snd kc))
          (data df).

(** What the program does not decide when it writes texts of its own: the
    table pandas reads from the workbook that [to_excel] wrote from a
    table ([reread]: texts such as [NA], numbers in text and formulas do not
    come back as they went), and what is left at the path when the write
    is refused half way ([torn]). *)
Class Excel := {
  reread : DataFrame -> DataFrame;
  torn : DataFrame -> file
}.

(** [df.to_excel(path, index=False, engine='openpyxl')] in [add_to_excel]:
    whether it returns, and the file afterwards.  Where openpyxl refuses a
    text, the exception leaves the file torn. *)
Definition df_to_excel {xl : Excel} (df : DataFrame) : bool * file :=
  if writable df then (true, Workbook (reread df) false) else (false, torn df).

(** [pd.concat([df, pd.DataFrame([company_data])], ignore_index=True)] *)
Definition appended (df : DataFrame) (company_data : dict) : DataFrame :=
  concat df (DataFrame_of_record company_data).

(** [add_to_excel]: the returned boolean and the state of the file
    afterwards.  Any exception, a missing key or a refused write among
    them, is reported in a dialog and gives [False]. *)
Definition add_to_excel {xl : Excel} (company_data : dict) (f : file)
  : bool * file :=
  match read_excel f with
  | None => (false, f)
  | Some df =>
      match getitem df "Company Name", dict_get company_data "Company Name" with
      | Some names, Some name =>
          if existsb (fun c => cell_eqb c name) names then (false, f)
          else
            let written := df_to_excel (appended df company_data) in
            if fst written then
              match adjust_excel_format (snd written) with
              | Some f' => (true, f')
              | None => (false, snd written)
              end
            else (false, snd written)
      | _, _ => (false, f)
      end
  end.

(** A library that reads back what it wrote and leaves the header alone
    of a refused table: the one of the examples. *)
Definition plain_excel : Excel :=
  {| reread := fun df => df;
     torn := fun df => Workbook (DataFrame_of_columns (columns df)) false |}.

(** The dictionary of [acme_text], under the company name [name]. *)
Definition record_named (name : string) : dict :=
  [ ("Company Name", Some name); ("Company Phone", Some "555-1234");
    ("Company Email", None); ("Industry", Some "Tools");
    ("Company Type", Some "LLC"); ("Import/Export Activities", None);
    ("Company Country", Some "US"); ("Company Website", None);
    ("Operations", Some "Makes anvils") ].

Definition acme_record : dict := record_named "Acme".

(** The bell, a character openpyxl refuses. *)
Definition BEL : string := String "007"%char EmptyString.

(** A new company whose phone number holds the bell. *)
Definition bell_record : dict :=
  [ ("Company Name", Some "Initech");
    ("Company Phone", Some ("555" ++ BEL ++ "1234")%string);
    ("Company Email", None); ("Industry", Some "Tools");
    ("Company Type", Some "LLC"); ("Import/Export Activities", None);
    ("Company Country", Some "US"); ("Company Website", None);
    ("Operations", Some "Makes anvils") ].

(** The text of which [bell_record] is the dictionary. *)
Definition bell_text : string :=
  ("Company Name: Initech" ++ nl ++
   "Company Phone: 555" ++ BEL ++ "1234" ++ nl ++
   "Industry: Tools" ++ nl ++
   "Company Type: LLC" ++ nl ++
   "Company Country: US" ++ nl ++
   "Company Operations: Makes anvils")%string.

(** A sheet with the nine columns and the one row of Acme. *)
Definition acme_sheet : DataFrame := DataFrame_of_record acme_record.

(** A sheet with a column of its own and one of the required ones. *)
Definition notes_sheet : DataFrame :=
  mkDataFrame 1 [ ("Notes", [Some "call back"]); ("Company Name", [Some "Acme"]) ].

(** The optional fields: dictionary key and label. *)
Definition optional_fields : list (string * string) :=
  [ ("Company Email", "Company Email");
    ("Import/Export Activities", "Import/Export Activities");
    ("Company Website", "Company Website") ].

(** A table as pandas keeps it: one cell per row in every column, and no
    column name twice. *)
Definition well_formed (df : DataFrame) : Prop :=
  rectangular df /\ NoDup (columns df).

Definition file_well_formed (f : file) : Prop :=
  match f with
  | Workbook df _ => well_formed df
  | _ => True
  end.

(** ** The main window *)

(** A [QMessageBox]: its kind, title and message.  The message of
    [critical_exception] is [prefix] followed by the text of the exception
    that was caught. *)
Inductive dialog :=
| critical (title message : string)
| critical_exception (title prefix : string)
| information (title message : string)
| warning (title message : string).

(** The files, by path. *)
Definition disk := string -> file.

(** The file at [path] replaced by [f]. *)
Definition write (d : disk) (path : string) (f : file) : disk :=
  fun p => if String.eqb p path then f else d p.

(** The part of [MainWindow] the handlers read and set. *)
Record MainWindow := mkMainWindow {
  selected_excel_file : option string;
  file_label : string
}.

(** The window as [__init__] leaves it. *)
Definition MainWindow_init : MainWindow :=
  mkMainWindow None "Selected File: No file selected.".

(** Python's truth value of a [str]. *)
Definition truthy (s : string) : bool := negb (String.eqb s "").

(** The path that [if not self.selected_excel_file] lets through. *)
Definition selected_path (w : MainWindow) : option string :=
  match selected_excel_file w with
  | Some p => if truthy p then Some p else None
  | None => None
  end.

(** The message boxes of the program. *)
Definition checking_error_box : dialog :=
  critical_exception "Error" "Error while checking Excel file: ".
Definition adding_error_box : dialog :=
  critical_exception "Error" "Error while adding data to Excel: ".
Definition invalid_format_box : dialog :=
  critical_exception "Error" "Invalid data format: ".
Definition no_file_box : dialog :=
  critical "Error" "Please select an Excel file first!".
Definition no_text_box : dialog :=
  critical "Error" "Please paste data into the text box!".
Definition success_box : dialog :=
  information "Success" "Data successfully added to Excel!".
Definition duplicate_box : dialog :=
  warning "Warning" "This company already exists in the file!".
Definition file_selected_box : dialog :=
  information "File Selected" "Excel file successfully selected!".
Definition invalid_file_box : dialog :=
  warning "Warning" "Please select a valid Excel file!".

(** The message box of the handler in [ensure_columns_exist]. *)
Definition ensure_columns_exist_dialogs (f : file) : list dialog :=
  if os_path_exists f then
    match read_excel f with
    | Some _ => []
    | None => [checking_error_box]
    end
  else [].

(** The message box of the handler in [add_to_excel]. *)
Definition add_to_excel_dialogs {xl : Excel} (company_data : dict) (f : file)
  : list dialog :=
  match read_excel f with
  | None => [adding_error_box]
  | Some df =>
      match getitem df "Company Name", dict_get company_data "Company Name" with
      | Some names, Some name =>
          if existsb (fun c => cell_eqb c name) names then []
          else
            let written := df_to_excel (appended df company_data) in
            if fst written then
              match adjust_excel_format (snd written) with
              | Some _ => []
              | None => [adding_error_box]
              end
            else [adding_error_box]
      | _, _ => [adding_error_box]
      end
  end.

(** [select_excel_file], [file_name] being what the file dialog returned
    (empty when it was cancelled): the message boxes, the window and the
    files afterwards. *)
Definition select_excel_file (file_name : string) (w : MainWindow) (d : disk)
  : list dialog * MainWindow * disk :=
  if truthy file_name then
    (ensure_columns_exist_dialogs (d file_name) ++ [file_selected_box],
     mkMainWindow (Some file_name) ("Selected File: " ++ file_name)%string,
     write d file_name (ensure_columns_exist (d file_name)))
  else ([invalid_file_box], w, d).

(** [process_input], [plain_text] being the content of the text box: the
    message boxes and the files afterwards.  Where [add_to_excel] has not
    written, the file put back is the file that was there. *)
Definition process_input {xl : Excel}
  (w : MainWindow) (plain_text : string) (d : disk) : list dialog * disk :=
  match selected_path w with
  | None => ([no_file_box], d)
  | Some path =>
      let input_text := Str.strip plain_text in
      if negb (truthy input_text) then ([no_text_box], d)
      else
        match parse_text input_text with
        | None => ([invalid_format_box], d)
        | Some [] => ([], d)
        | Some company_data =>
            let r := add_to_excel company_data (d path) in
            (add_to_excel_dialogs company_data (d path)
             ++ [if fst r then success_box else duplicate_box],
             write d path (snd r))
        end
  end.

(** A disk with no file at all. *)
Definition empty_disk : disk := fun _ => Absent.

(** A window on which the file at [path] is selected. *)
Definition window_on (path : string) : MainWindow :=
  mkMainWindow (Some path) ("Selected File: " ++ path)%string.

(** A disk whose only file, at [book.xlsx], is the workbook of
    [notes_sheet]. *)
Definition notes_disk : disk :=
  fun p => if String.eqb p "book.xlsx" then Workbook notes_sheet true else Absent.

(** A disk whose only file, at [broken.xlsx], cannot be read. *)
Definition broken_disk : disk :=
  fun p => if String.eqb p "broken.xlsx" then Unreadable else Absent.

(** * Properties of the extractor *)

Local Open Scope string_scope.

Module StrFacts.
Import Str.

Lemma append_assoc (a b c : string) : (a ++ b) ++ c = a ++ b ++ c.
Proof. induction a as [|x a IH]; simpl; [reflexivity | now rewrite IH]. Qed.

Lemma append_nil_r (s : string) : s ++ "" = s.
Proof. induction s as [|x s IH]; simpl; [reflexivity | now rewrite IH]. Qed.

Lemma length_append (a b : string) :
  String.length (a ++ b) = String.length a + String.length b.
Proof. induction a as [|x a IH]; simpl; [reflexivity | now rewrite IH]. Qed.

Lemma is_newline_true (c : ascii) : is_newline c = true -> c = LF.
Proof. unfold is_newline. apply Ascii.eqb_eq. Qed.

Lemma drop_literal_Some (lit text rest : string) :
  drop_literal lit text = Some rest <-> text = lit ++ rest.
Proof.
  revert text. induction lit as [|a lit IH]; intros text; simpl.
  - split; congruence.
  - destruct text as [|b text].
    + split; discriminate.
    + destruct (Ascii.eqb_spec a b) as [->|Hab].
      * rewrite IH. split; congruence.
      * split; [discriminate | congruence].
Qed.

Lemma drop_literal_app (lit rest : string) :
  drop_literal lit (lit ++ rest) = Some rest.
Proof. now apply drop_literal_Some. Qed.

Lemma occursb_unfold (pat text : string) :
  occursb pat text =
  match drop_literal pat text with
  | Some _ => true
  | None => match text with
            | EmptyString => false
            | String _ text' => occursb pat text'
            end
  end.
Proof. destruct text; reflexivity. Qed.

Lemma occursb_occurs (pat text : string) :
  occursb pat text = true <-> occurs pat text.
Proof.
  split.
  - induction text as [|a text IH]; rewrite occursb_unfold;
      destruct (drop_literal pat _) as [r|] eqn:E; intros H;
      try discriminate.
    + exists "", r. simpl. now apply drop_literal_Some.
    + exists "", r. simpl. now apply drop_literal_Some.
    + destruct (IH H) as (pre & post & ->).
      now exists (String a pre), post.
  - intros (pre & post & ->). induction pre as [|a pre IH].
    + rewrite occursb_unfold. simpl. now rewrite drop_literal_app.
    + rewrite occursb_unfold.
      destruct (drop_literal pat _); [reflexivity | exact IH].
Qed.

Lemma partition_unfold (sep text : string) :
  partition sep text =
  match drop_literal sep text with
  | Some post => Some ("", post)
  | None =>
      match text with
      | EmptyString => None
      | String a text' =>
          match partition sep text' with
          | Some (pre, post) => Some (String a pre, post)
          | None => None
          end
      end
  end.
Proof. destruct text; reflexivity. Qed.

Lemma partition_first (sep text : string) :
  forall pre post,
    partition sep text = Some (pre, post) ->
    first_occurrence sep text pre post.
Proof.
  induction text as [|a text IH]; intros pre post; rewrite partition_unfold;
    destruct (drop_literal sep _) as [r|] eqn:E; try discriminate.
  - intros [= <- <-]. apply drop_literal_Some in E.
    split; [exact E | intros; apply Nat.le_0_l].
  - intros [= <- <-]. apply drop_literal_Some in E.
    split; [exact E | intros; apply Nat.le_0_l].
  - destruct (partition sep text) as [[pre0 post0]|]; [|discriminate].
    intros [= <- <-]. destruct (IH _ _ eq_refl) as [H1 H2]. split.
    + simpl. now rewrite <- H1.
    + intros [|b pre'] post' H.
      * simpl in H. apply drop_literal_Some in H. congruence.
      * simpl in H. injection H as _ H. apply H2 in H. simpl. lia.
Qed.

Lemma occurs_app_l (a b text : string) : occurs (a ++ b) text -> occurs a text.
Proof.
  intros (pre & post & ->). exists pre, (b ++ post). now rewrite append_assoc.
Qed.

Lemma lstrip_has_ink (s : string) : has_ink (lstrip s) = has_ink s.
Proof.
  induction s as [|c s IH]; simpl; [reflexivity|].
  destruct (is_space c) eqn:E; simpl; [exact IH | now rewrite E].
Qed.

Lemma rstrip_empty (s : string) : rstrip s = "" <-> has_ink s = false.
Proof.
  induction s as [|c s IH]; simpl; [tauto|].
  destruct (rstrip s) as [|x r]; destruct (is_space c); simpl.
  - apply IH.
  - split; discriminate.
  - split; [discriminate|]. intros H. now apply IH in H.
  - split; discriminate.
Qed.

(** [strip] gives the empty string exactly on white space. *)
Lemma strip_empty (s : string) : strip s = "" <-> has_ink s = false.
Proof. unfold strip. now rewrite rstrip_empty, lstrip_has_ink. Qed.

End StrFacts.

Module ReFacts.
Import Str Re StrFacts.

Lemma dot_star_spec (s : string) :
  exists post,
    s = dot_star s ++ post /\ at_line_end post /\ no_newline (dot_star s) = true.
Proof.
  induction s as [|a s (post & H1 & H2 & H3)]; simpl.
  - exists "". repeat split. now left.
  - destruct (is_newline a) eqn:E.
    + exists (String a s). repeat split. right. exists s.
      now rewrite (is_newline_true _ E).
    + exists post. simpl. rewrite E, H3. repeat split; [congruence | exact H2].
Qed.

Lemma search_unfold (lit : string) (dotall : bool) (text : string) :
  search lit dotall text =
  match match_here lit dotall text with
  | Some g => Some g
  | None => match text with
            | EmptyString => None
            | String _ text' => search lit dotall text'
            end
  end.
Proof. destruct text; reflexivity. Qed.

Lemma match_here_Some (lit : string) (dotall : bool) (text g : string) :
  match_here lit dotall text = Some g <->
  exists c rest, matches_at lit dotall text "" c rest /\
                 g = group1 dotall (String c rest).
Proof.
  unfold match_here, matches_at, group1. simpl.
  destruct (drop_literal lit text) as [r|] eqn:E.
  - apply drop_literal_Some in E. subst text.
    assert (K : forall c rest, lit ++ r = lit ++ String c rest -> r = String c rest).
    { intros c rest H. apply (f_equal (drop_literal lit)) in H.
      rewrite !drop_literal_app in H. congruence. }
    destruct r as [|c rest]; simpl.
    + split; [discriminate|]. intros (c & rest & [H _] & _).
      apply K in H. discriminate.
    + destruct dotall.
      * split.
        -- intros [= <-]. exists c, rest. auto.
        -- intros (c' & rest' & [H _] & ->). apply K in H. congruence.
      * destruct (is_newline c) eqn:En.
        -- split; [discriminate|].
           intros (c' & rest' & [H [Hd|Hn]] & _); [discriminate|].
           apply K in H. congruence.
        -- split.
           ++ intros [= <-]. exists c, rest. simpl. rewrite En. auto.
           ++ intros (c' & rest' & [H _] & ->). apply K in H.
              injection H as <- <-. simpl. now rewrite En.
  - split; [discriminate|]. intros (c & rest & [-> _] & _).
    rewrite drop_literal_app in E. discriminate.
Qed.

(** A successful search comes from a match somewhere in the text. *)
Lemma search_Some (lit : string) (dotall : bool) (text g : string) :
  search lit dotall text = Some g ->
  exists pre c rest, matches_at lit dotall text pre c rest /\
                     g = group1 dotall (String c rest).
Proof.
  induction text as [|a text IH]; rewrite search_unfold;
    destruct (match_here lit dotall _) as [g'|] eqn:E; intros H;
    try discriminate.
  - injection H as ->. apply match_here_Some in E.
    destruct E as (c & rest & E1 & E2). now exists "", c, rest.
  - injection H as ->. apply match_here_Some in E.
    destruct E as (c & rest & E1 & E2). now exists "", c, rest.
  - destruct (IH H) as (pre & c & rest & [-> Hc] & Hg).
    exists (String a pre), c, rest. now split.
Qed.

(** The search finds the leftmost match. *)
Lemma search_leftmost (lit : string) (dotall : bool) (pre : string) :
  forall (text : string) (c : ascii) (rest : string),
    matches_at lit dotall text pre c rest ->
    (forall pre' c' rest',
        matches_at lit dotall text pre' c' rest' ->
        String.length pre <= String.length pre') ->
    search lit dotall text = Some (group1 dotall (String c rest)).
Proof.
  induction pre as [|a pre IH]; intros text c rest Hm Hmin;
    rewrite search_unfold.
  - assert (E : match_here lit dotall text
                = Some (group1 dotall (String c rest))).
    { apply match_here_Some. now exists c, rest. }
    now rewrite E.
  - destruct (match_here lit dotall text) as [g|] eqn:E.
    + apply match_here_Some in E. destruct E as (c' & rest' & E & _).
      apply Hmin in E. simpl in E. lia.
    + destruct Hm as [-> Hc]. simpl. apply IH.
      * now split.
      * intros pre' c' rest' [E' Hc'].
        assert (L : String.length (String a pre)
                    <= String.length (String a pre')).
        { apply (Hmin (String a pre') c' rest'). split; [|exact Hc'].
          simpl. now rewrite E'. }
        simpl in L. lia.
Qed.

(** Every match makes the search succeed. *)
Lemma search_complete (lit : string) (dotall : bool) (pre : string) :
  forall (text : string) (c : ascii) (rest : string),
    matches_at lit dotall text pre c rest ->
    exists g, search lit dotall text = Some g.
Proof.
  induction pre as [|a pre IH]; intros text c rest Hm; rewrite search_unfold;
    destruct (match_here lit dotall text) as [g|] eqn:E; eauto.
  - assert (E' : match_here lit dotall text
                 = Some (group1 dotall (String c rest))).
    { apply match_here_Some. now exists c, rest. }
    congruence.
  - destruct Hm as [-> Hc]. simpl. apply (IH _ c rest). now split.
Qed.

Lemma search_occurs (lit : string) (dotall : bool) (text g : string) :
  search lit dotall text = Some g -> occurs lit text.
Proof.
  intros H. apply search_Some in H. destruct H as (pre & c & rest & [-> _] & _).
  now exists pre, (String c rest).
Qed.

(** Without [re.DOTALL] group 1 is a non-empty piece of one line that runs
    to the end of that line. *)
Lemma search_line (lit : string) (text g : string) :
  search lit false text = Some g ->
  exists pre post,
    text = pre ++ lit ++ g ++ post /\ g <> "" /\ no_newline g = true /\
    at_line_end post.
Proof.
  intros H. apply search_Some in H.
  destruct H as (pre & c & rest & [-> [Hc|Hc]] & ->); [discriminate|].
  unfold group1.
  destruct (dot_star_spec (String c rest)) as (post & H1 & H2 & H3).
  exists pre, post. rewrite <- H1. repeat split; try assumption.
  simpl. rewrite Hc. discriminate.
Qed.

(** With [re.DOTALL] group 1 is all the text after the literal. *)
Lemma search_dotall (lit : string) (text g : string) :
  search lit true text = Some g ->
  exists pre, text = pre ++ lit ++ g /\ g <> "".
Proof.
  intros H. apply search_Some in H.
  destruct H as (pre & c & rest & [-> _] & ->).
  exists pre. split; [reflexivity | discriminate].
Qed.

End ReFacts.

Module Extractor.
Import Str Re StrFacts ReFacts.

Lemma extract_optional_field_eq (lit text : string) :
  extract_optional_field lit text = search_group1_strip lit false text.
Proof. reflexivity. Qed.

Lemma search_absent (label text : string) :
  ~ occurs label text ->
  forall suffix dotall, search (label ++ suffix) dotall text = None.
Proof.
  intros H suffix dotall.
  destruct (search (label ++ suffix) dotall text) as [g|] eqn:E; [|reflexivity].
  exfalso. apply H. eapply occurs_app_l, search_occurs, E.
Qed.

(** A successful [parse_text] has run its six mandatory searches with
    success, and returns their stripped groups under the nine keys. *)
Lemma parse_text_Some (text : string) (r : dict) :
  parse_text text = Some r ->
  exists name phone industry type country operations,
    search "Company Name: " false text = Some name /\
    search "Company Phone: " false text = Some phone /\
    search "Industry: " false text = Some industry /\
    search "Company Type: " false text = Some type /\
    search "Company Country: " false text = Some country /\
    search "Company Operations: " true text = Some operations /\
    r = [ ("Company Name", Some (strip name));
          ("Company Phone", Some (strip phone));
          ("Company Email", extract_optional_field "Company Email: " text);
          ("Industry", Some (strip industry));
          ("Company Type", Some (strip type));
          ("Import/Export Activities",
            extract_optional_field "Import/Export Activities: " text);
          ("Company Country", Some (strip country));
          ("Company Website", extract_optional_field "Company Website: " text);
          ("Operations", Some (strip operations)) ].
Proof.
  unfold parse_text, search_group1_strip, bind.
  destruct (search "Company Name: " false text) as [name|]; [|discriminate].
  destruct (search "Company Phone: " false text) as [phone|]; [|discriminate].
  destruct (search "Industry: " false text) as [industry|]; [|discriminate].
  destruct (search "Company Type: " false text) as [type|]; [|discriminate].
  destruct (search "Company Country: " false text) as [country|];
    [|discriminate].
  destruct (search "Company Operations: " true text) as [operations|];
    [|discriminate].
  simpl. intros [= <-].
  exists name, phone, industry, type, country, operations.
  repeat split; reflexivity.
Qed.

(** One failed mandatory search makes [parse_text] fail. *)
Lemma parse_text_None (text lit : string) (dotall : bool) :
  In (lit, dotall) mandatory_patterns ->
  search lit dotall text = None ->
  parse_text text = None.
Proof.
  intros Hin E.
  destruct (parse_text text) as [r|] eqn:P; [|reflexivity].
  apply parse_text_Some in P.
  destruct P as (n & p & i & t & c & o & Hn & Hp & Hi & Ht & Hc & Ho & _).
  simpl in Hin.
  repeat (destruct Hin as [[= <- <-]|Hin]; [congruence|]).
  contradiction.
Qed.

(** Where each of the six patterns matches somewhere, [parse_text]
    returns a dictionary. *)
Lemma parse_text_succeeds (text : string) :
  (forall lit dotall, In (lit, dotall) mandatory_patterns ->
     exists pre c rest, matches_at lit dotall text pre c rest) ->
  exists r, parse_text text = Some r.
Proof.
  intros H.
  assert (K : forall lit dotall, In (lit, dotall) mandatory_patterns ->
                exists g, search lit dotall text = Some g).
  { intros lit dotall Hin. destruct (H lit dotall Hin) as (pre & c & rest & Hm).
    eapply search_complete, Hm. }
  unfold parse_text, search_group1_strip, bind.
  destruct (K "Company Name: " false) as [? ->]; [simpl; tauto|].
  destruct (K "Company Phone: " false) as [? ->]; [simpl; tauto|].
  destruct (K "Industry: " false) as [? ->]; [simpl; tauto|].
  destruct (K "Company Type: " false) as [? ->]; [simpl; tauto|].
  destruct (K "Company Country: " false) as [? ->]; [simpl; tauto|].
  destruct (K "Company Operations: " true) as [? ->]; [simpl; tauto|].
  simpl. eauto.
Qed.

Lemma no_match_before_spec (lit : string) (dotall : bool) (n : nat) :
  forall text,
    no_match_before lit dotall text n = true ->
    forall pre c rest,
      matches_at lit dotall text pre c rest -> n <= String.length pre.
Proof.
  induction n as [|n IH]; intros text H pre c rest Hm; [lia|].
  cbn [no_match_before] in H.
  destruct (match_here lit dotall text) as [g|] eqn:E; [discriminate|].
  destruct pre as [|a pre].
  - assert (E' : match_here lit dotall text
                 = Some (group1 dotall (String c rest))).
    { apply match_here_Some. now exists c, rest. }
    congruence.
  - destruct Hm as [-> Hc]. simpl in *.
    apply le_n_S, (IH _ H pre c rest). now split.
Qed.

(** C1, at the text [blank_name_text]: the six labelled lines are there,
    the name's line carrying blanks only after the label, colon and blank;
    the text is as [process_input] passes it on (stripping it changes
    nothing), each of the six searches matches, and [parse_text] returns a
    dictionary whose Company Name is the empty string. *)
Theorem parse_text_blank_name :
  strip blank_name_text = blank_name_text /\
  (forall lit dotall, In (lit, dotall) mandatory_patterns ->
     search lit dotall blank_name_text <> None) /\
  parse_text blank_name_text =
  Some [ ("Company Name", Some ""); ("Company Phone", Some "555-1234");
         ("Company Email", None); ("Industry", Some "Tools");
         ("Company Type", Some "LLC"); ("Import/Export Activities", None);
         ("Company Country", Some "US"); ("Company Website", None);
         ("Operations", Some "Makes anvils") ].
Proof.
  split; [reflexivity|]. split; [|reflexivity].
  intros lit dotall Hin. simpl in Hin.
  repeat (destruct Hin as [[= <- <-]|Hin]; [vm_compute; discriminate|]).
  contradiction.
Qed.

(** C2: a text in which one of the six mandatory labels does not occur
    makes [parse_text] fail: it returns [None], not a dictionary. *)
Theorem parse_text_missing_label (text label : string) :
  In label mandatory_labels ->
  ~ occurs label text ->
  parse_text text = None.
Proof.
  intros Hin Hno.
  assert (E := search_absent label text Hno ": ").
  simpl in Hin.
  destruct Hin as [<-|[<-|[<-|[<-|[<-|[<-|[]]]]]]].
  - apply (parse_text_None text "Company Name: " false); [simpl; tauto|apply E].
  - apply (parse_text_None text "Company Phone: " false); [simpl; tauto|apply E].
  - apply (parse_text_None text "Industry: " false); [simpl; tauto|apply E].
  - apply (parse_text_None text "Company Type: " false); [simpl; tauto|apply E].
  - apply (parse_text_None text "Company Country: " false);
      [simpl; tauto|apply E].
  - apply (parse_text_None text "Company Operations: " true);
      [simpl; tauto|apply E].
Qed.

Lemma parse_text_missing_label_witness :
  In "Industry" mandatory_labels /\
  ~ occurs "Industry" no_industry_text /\
  parse_text no_industry_text = None.
Proof.
  assert (Hin : In "Industry" mandatory_labels) by (simpl; tauto).
  assert (Hno : ~ occurs "Industry" no_industry_text).
  { intros H. apply occursb_occurs in H. vm_compute in H. discriminate. }
  exact (conj Hin (conj Hno
           (parse_text_missing_label no_industry_text "Industry" Hin Hno))).
Defined.

(** C5, as the code has it: in the dictionary [parse_text] returns, each of
    the five one-line mandatory fields is group 1 of its search, a non-empty
    piece of one line that follows the label, colon and blank and runs to
    the end of that line, with the white space at both ends removed;
    [Operations] is all the text after its label, colon and blank, to the
    end of the input and line feeds included, with the white space at both
    ends removed. *)
Theorem parse_text_values (text : string) (r : dict) :
  parse_text text = Some r ->
  (forall key lit, In (key, lit) line_fields ->
     exists pre v post,
       search lit false text = Some v /\
       text = pre ++ lit ++ v ++ post /\
       v <> "" /\ no_newline v = true /\ at_line_end post /\
       dict_get r key = Some (Some (strip v))) /\
  (exists pre v,
     search "Company Operations: " true text = Some v /\
     text = pre ++ "Company Operations: " ++ v /\
     v <> "" /\
     dict_get r "Operations" = Some (Some (strip v))).
Proof.
  intros P. apply parse_text_Some in P.
  destruct P as (n & p & i & t & c & o & Hn & Hp & Hi & Ht & Hc & Ho & ->).
  assert (L : forall lit v key,
            search lit false text = Some v ->
            forall d : dict, dict_get d key = Some (Some (strip v)) ->
            exists pre v post,
              search lit false text = Some v /\
              text = pre ++ lit ++ v ++ post /\
              v <> "" /\ no_newline v = true /\ at_line_end post /\
              dict_get d key = Some (Some (strip v))).
  { intros lit v key Hs d Hd.
    destruct (search_line _ _ _ Hs) as (pre & post & H1 & H2 & H3 & H4).
    exists pre, v, post. tauto. }
  split.
  - intros key lit Hin. simpl in Hin.
    destruct Hin as [[= <- <-]|[[= <- <-]|[[= <- <-]|[[= <- <-]|[[= <- <-]|[]]]]]].
    + now apply (L _ n).
    + now apply (L _ p).
    + now apply (L _ i).
    + now apply (L _ t).
    + now apply (L _ c).
  - destruct (search_dotall _ _ _ Ho) as (pre & H1 & H2).
    exists pre, o. repeat split; assumption.
Qed.

Lemma parse_text_values_witness :
  parse_text padded_text = Some padded_record /\
  exists pre v,
    search "Company Operations: " true padded_text = Some v /\
    padded_text = pre ++ "Company Operations: " ++ v /\
    v <> "" /\
    dict_get padded_record "Operations" = Some (Some (strip v)).
Proof.
  exact (conj eq_refl (proj2 (parse_text_values padded_text padded_record eq_refl))).
Defined.

(** C5 as it is worded fails on [padded_text]: the Company Name is not the
    rest of the label's line, and the Operations are not the rest of the
    text; the blanks and the final line feeds are gone. *)
Lemma parse_text_values_counterexample :
  ~ (forall text r pre rest,
       parse_text text = Some r ->
       first_occurrence "Company Name: " text pre rest ->
       dict_get r "Company Name" = Some (Some (dot_star rest))) /\
  ~ (forall text r pre rest,
       parse_text text = Some r ->
       first_occurrence "Company Operations: " text pre rest ->
       dict_get r "Operations" = Some (Some rest)).
Proof.
  assert (P : parse_text padded_text = Some padded_record) by reflexivity.
  split; intros H.
  - destruct (partition "Company Name: " padded_text) as [[pre post]|] eqn:E;
      [|discriminate E].
    assert (F := partition_first _ _ _ _ E).
    vm_compute in E. injection E as <- <-.
    specialize (H _ _ _ _ P F). vm_compute in H. discriminate H.
  - destruct (partition "Company Operations: " padded_text)
      as [[pre post]|] eqn:E; [|discriminate E].
    assert (F := partition_first _ _ _ _ E).
    vm_compute in E. injection E as <- <-.
    specialize (H _ _ _ _ P F). vm_compute in H. discriminate H.
Qed.

(** C9, as the code has it: the label may stand anywhere in the text, also
    in the middle of a line, and the extractor takes the leftmost place
    where the label, colon and blank are followed by a character that [.]
    accepts (any character but the line feed; any character at all for
    Operations); the value is read from there and later occurrences are
    ignored.  An earlier occurrence that is followed at once by a line feed
    or by the end of the text is passed over. *)
Theorem search_uses_leftmost_match
  (lit : string) (dotall : bool) (text pre : string) (c : ascii) (rest : string) :
  matches_at lit dotall text pre c rest ->
  (forall pre' c' rest',
      matches_at lit dotall text pre' c' rest' ->
      String.length pre <= String.length pre') ->
  search_group1_strip lit dotall text
  = Some (strip (group1 dotall (String c rest))) /\
  (dotall = false ->
   extract_optional_field lit text = Some (strip (dot_star (String c rest)))).
Proof.
  intros Hm Hmin. unfold search_group1_strip, extract_optional_field.
  split.
  - now rewrite (search_leftmost lit dotall pre text c rest Hm Hmin).
  - intros ->. now rewrite (search_leftmost lit false pre text c rest Hm Hmin).
Qed.

Lemma search_uses_leftmost_match_witness :
  matches_at "Company Email: " false midline_text "Contact (" "s"
    ("ales@acme.example)" ++ nl ++ "Company Email: old@acme.example") /\
  extract_optional_field "Company Email: " midline_text
  = Some "sales@acme.example)".
Proof.
  assert (Hm : matches_at "Company Email: " false midline_text "Contact (" "s"
                 ("ales@acme.example)" ++ nl ++ "Company Email: old@acme.example")).
  { split; [reflexivity | right; reflexivity]. }
  exact (conj Hm
           (proj2 (search_uses_leftmost_match _ _ _ _ _ _ Hm
                     (no_match_before_spec "Company Email: " false 9
                        midline_text eq_refl))
                  eq_refl)).
Defined.

(** C9 as it is worded fails on [repeated_label_text]: the first
    occurrence of the label, colon and blank ends its line, and the value
    comes from the second occurrence. *)
Lemma search_first_occurrence_counterexample :
  ~ (forall lit text pre post,
       first_occurrence lit text pre post ->
       extract_optional_field lit text = Some (strip (dot_star post))).
Proof.
  intros H.
  destruct (partition "Company Email: " repeated_label_text)
    as [[pre post]|] eqn:E; [|discriminate E].
  assert (F := partition_first _ _ _ _ E).
  vm_compute in E. injection E as <- <-.
  apply H in F. vm_compute in F. discriminate F.
Qed.

End Extractor.

(** * Properties of the sheet store *)

Module TableFacts.
Local Open Scope list_scope.

Lemma mem_In (k : string) (l : list string) : mem k l = true <-> In k l.
Proof.
  unfold mem. rewrite existsb_exists. split.
  - intros (x & Hx & E). apply String.eqb_eq in E. now subst.
  - intros H. exists k. split; [exact H | apply String.eqb_refl].
Qed.

Lemma mem_false (k : string) (l : list string) : mem k l = false <-> ~ In k l.
Proof.
  rewrite <- mem_In. destruct (mem k l); split; congruence.
Qed.

Lemma mem_app (k : string) (l1 l2 : list string) :
  mem k (l1 ++ l2) = mem k l1 || mem k l2.
Proof. apply existsb_app. Qed.

Section Assoc.
Context {A : Type}.
Implicit Types (l : list (string * A)) (k : string).

Lemma assoc_app l1 l2 k :
  assoc (l1 ++ l2) k =
  match assoc l1 k with
  | Some v => Some v
  | None => assoc l2 k
  end.
Proof.
  induction l1 as [|[k' v] l1 IH]; simpl; [reflexivity|].
  now destruct (String.eqb k' k).
Qed.

Lemma assoc_None l k : assoc l k = None <-> mem k (map fst l) = false.
Proof.
  induction l as [|[k' v] l IH]; simpl; [tauto|].
  rewrite (String.eqb_sym k k').
  destruct (String.eqb k' k); simpl; [split; discriminate | exact IH].
Qed.

Lemma assoc_Some_In l k v : assoc l k = Some v -> In (k, v) l.
Proof.
  induction l as [|[k' v'] l IH]; simpl; [discriminate|].
  destruct (String.eqb_spec k' k) as [->|_].
  - intros [= ->]. now left.
  - intros H. right. now apply IH.
Qed.

Lemma assoc_In_fst l k : In k (map fst l) -> exists v, assoc l k = Some v.
Proof.
  intros H. destruct (assoc l k) as [v|] eqn:E; [now exists v|].
  apply assoc_None in E. apply mem_false in E. contradiction.
Qed.

(** Values rebuilt from key and value, keys kept. *)
Lemma assoc_map {B : Type} (g : string -> A -> B) l k :
  assoc (map (fun kv => (fst kv, g (fst kv) (snd kv))) l) k
  = option_map (g k) (assoc l k).
Proof.
  induction l as [|[k' v] l IH]; simpl; [reflexivity|].
  destruct (String.eqb_spec k' k) as [->|_]; [reflexivity | exact IH].
Qed.

(** Entries kept or dropped by their key. *)
Lemma assoc_filter (p : string -> bool) l k :
  assoc (filter (fun kv => p (fst kv)) l) k
  = if p k then assoc l k else None.
Proof.
  induction l as [|[k' v] l IH]; simpl; [now destruct (p k)|].
  destruct (p k') eqn:Ep; simpl;
    destruct (String.eqb_spec k' k) as [->|_]; try exact IH.
  - now rewrite Ep.
  - now rewrite Ep in *.
Qed.

End Assoc.

Lemma assoc_const {A : Type} (v : A) (names : list string) (k : string) :
  In k names -> assoc (map (fun c => (c, v)) names) k = Some v.
Proof.
  induction names as [|c names IH]; simpl; [tauto|].
  destruct (String.eqb_spec c k) as [->|Hn]; [reflexivity|].
  intros [H|H]; [contradiction | now apply IH].
Qed.

Lemma filter_nil {A : Type} (p : A -> bool) (l : list A) :
  (forall x, In x l -> p x = false) -> filter p l = [].
Proof.
  induction l as [|x l IH]; simpl; intros H; [reflexivity|].
  rewrite (H x) by now left. apply IH. intros y Hy. apply H. now right.
Qed.

Lemma NoDup_required_columns : NoDup required_columns.
Proof.
  unfold required_columns.
  repeat (constructor;
          [ simpl; intros H;
            repeat (destruct H as [H|H]; [discriminate H|]); exact H | ]).
  constructor.
Qed.

(** [pd.concat], column by column. *)
Lemma getitem_concat (a b : DataFrame) (k : string) :
  getitem (concat a b) k =
  match getitem a k with
  | Some s =>
      Some (s ++ match getitem b k with
                 | Some s' => s'
                 | None => repeat None (nrows b)
                 end)
  | None => option_map (app (repeat None (nrows a))) (getitem b k)
  end.
Proof.
  unfold getitem, concat. simpl. rewrite assoc_app.
  rewrite (assoc_map (fun k s => s ++ match assoc (data b) k with
                                       | Some s' => s'
                                       | None => repeat None (nrows b)
                                       end)).
  destruct (assoc (data a) k) as [s|] eqn:E; simpl; [reflexivity|].
  rewrite (assoc_map (fun _ s => repeat None (nrows a) ++ s)).
  rewrite (assoc_filter (fun k => negb (mem k (columns a)))).
  apply assoc_None in E. unfold columns. now rewrite E.
Qed.

Lemma columns_concat (a b : DataFrame) :
  columns (concat a b)
  = columns a ++ filter (fun k => negb (mem k (columns a))) (columns b).
Proof.
  unfold columns, concat. simpl. rewrite map_app, !map_map. simpl.
  f_equal. induction (data b) as [|[k s] l IH]; simpl; [reflexivity|].
  change (columns a) with (map fst (data a)) in *.
  destruct (negb (mem k (map fst (data a)))); simpl; now f_equal.
Qed.

Lemma getitem_of_record (d : dict) (k : string) :
  getitem (DataFrame_of_record d) k
  = option_map (fun v => [v]) (dict_get d k).
Proof.
  unfold getitem, DataFrame_of_record, dict_get. simpl.
  apply (assoc_map (fun _ v => [v])).
Qed.

(** The loop of [ensure_columns_exist] puts the missing names, in their
    order, after the columns that are there. *)
Lemma add_missing_spec (required : list string) :
  NoDup required ->
  forall df,
    add_missing required df =
    mkDataFrame (nrows df)
      (data df
       ++ map (fun c => (c, repeat None (nrows df)))
              (filter (fun c => negb (mem c (columns df))) required)).
Proof.
  unfold add_missing.
  induction 1 as [|c required Hc Hnd IH]; intros df; simpl.
  - rewrite app_nil_r. now destruct df.
  - destruct (mem c (columns df)) eqn:E; simpl.
    + apply IH.
    + rewrite IH. unfold setitem_None. rewrite E. simpl.
      rewrite <- app_assoc. simpl. do 4 f_equal.
      apply filter_ext_in. intros x Hx.
      unfold columns. simpl. rewrite map_app, mem_app. simpl.
      destruct (String.eqb_spec x c) as [->|_]; [contradiction|].
      now rewrite !orb_false_r.
Qed.

Lemma add_missing_fixed (required : list string) (df : DataFrame) :
  NoDup required ->
  (forall c, In c required -> In c (columns df)) ->
  add_missing required df = df.
Proof.
  intros Hnd H. rewrite (add_missing_spec required Hnd).
  rewrite filter_nil.
  - simpl. rewrite app_nil_r. now destruct df.
  - intros c Hc. apply H, mem_In in Hc. now rewrite Hc.
Qed.

Lemma add_missing_has (required : list string) (df : DataFrame) (c : string) :
  NoDup required ->
  In c required -> In c (columns (add_missing required df)).
Proof.
  intros Hnd Hc. rewrite (add_missing_spec required Hnd).
  unfold columns. simpl. rewrite map_app, map_map. simpl. rewrite map_id.
  apply in_or_app.
  destruct (mem c (map fst (data df))) eqn:E.
  - left. now apply mem_In.
  - right. apply filter_In. split; [exact Hc|]. unfold columns. now rewrite E.
Qed.

End TableFacts.

Module SheetStore.
Import TableFacts.
Local Open Scope list_scope.

(** The duplicate test of [add_to_excel]: some cell of the column is a text
    equal to [name], character by character. *)
Lemma duplicate_test (names : Series) (name : string) :
  existsb (fun c => cell_eqb c (Some name)) names = true
  <-> In (Some name) names.
Proof.
  rewrite existsb_exists. split.
  - intros ([s|] & Hin & E); simpl in E; [|discriminate].
    apply String.eqb_eq in E. now subst.
  - intros H. exists (Some name). split; [exact H|]. apply String.eqb_refl.
Qed.

Section Store.
Context {xl : Excel}.

(** What [add_to_excel] does on a workbook that has the Company Name
    column, for a dictionary whose Company Name is a text. *)
Lemma add_to_excel_cases
  (df : DataFrame) (w : bool) (company_data : dict) (name : string)
  (names : Series) :
  getitem df "Company Name" = Some names ->
  dict_get company_data "Company Name" = Some (Some name) ->
  add_to_excel company_data (Workbook df w) =
  if existsb (fun c => cell_eqb c (Some name)) names
  then (false, Workbook df w)
  else if writable (appended df company_data)
       then (true, Workbook (reread (appended df company_data)) false)
       else (false, torn (appended df company_data)).
Proof.
  intros Hcol Hname. unfold add_to_excel, df_to_excel. cbn [read_excel].
  rewrite Hcol, Hname.
  destruct (existsb _ names); [reflexivity|].
  now destruct (writable (appended df company_data)).
Qed.

(** C3: where some row of the sheet has the Company Name of the
    dictionary, [add_to_excel] returns [False] and the file is what it was:
    same rows, same cells, same formatting. *)
Theorem add_to_excel_duplicate
  (df : DataFrame) (w : bool) (company_data : dict) (name : string)
  (names : Series) :
  getitem df "Company Name" = Some names ->
  dict_get company_data "Company Name" = Some (Some name) ->
  In (Some name) names ->
  add_to_excel company_data (Workbook df w) = (false, Workbook df w).
Proof.
  intros Hcol Hname Hin.
  rewrite (add_to_excel_cases df w company_data name names Hcol Hname).
  apply duplicate_test in Hin. now rewrite Hin.
Qed.

(** C4, as the code has it: on a sheet with the Company Name column in
    which no row has the Company Name of the dictionary, and where openpyxl
    refuses no text of the table to be written, [add_to_excel] returns
    [True] and writes the table [appended]; that table has one row more;
    in its last row the cell under each key of the dictionary is the
    dictionary's value ([None] for an absent optional field) and the cell
    under any other column is null; every cell of the rows that were there
    is what it was, and the columns that were there come first, in their
    order.  (What pandas reads from the written file is its reading of
    that table.) *)
Theorem add_to_excel_inserted
  (df : DataFrame) (w : bool) (company_data : dict) (name : string)
  (names : Series) :
  rectangular df ->
  getitem df "Company Name" = Some names ->
  dict_get company_data "Company Name" = Some (Some name) ->
  ~ In (Some name) names ->
  writable (appended df company_data) = true ->
  add_to_excel company_data (Workbook df w)
  = (true, Workbook (reread (appended df company_data)) false) /\
  nrows (appended df company_data) = nrows df + 1 /\
  (forall key v, dict_get company_data key = Some v ->
                 cell_at (appended df company_data) key (nrows df) = Some v) /\
  (forall key, In key (columns df) -> dict_get company_data key = None ->
               cell_at (appended df company_data) key (nrows df) = Some None) /\
  (forall key i v, cell_at df key i = Some v ->
                   cell_at (appended df company_data) key i = Some v) /\
  (forall key i, ~ In key (columns df) -> In key (map fst company_data) ->
                 i < nrows df ->
                 cell_at (appended df company_data) key i = Some None) /\
  columns (appended df company_data)
  = columns df ++ filter (fun k => negb (mem k (columns df)))
                         (map fst company_data).
Proof.
  intros Hrect Hcol Hname Hnew Hw. unfold appended in *.
  assert (Hlen : forall key s, getitem df key = Some s ->
                               List.length s = nrows df).
  { intros key s H. apply assoc_Some_In in H.
    unfold rectangular in Hrect. rewrite Forall_forall in Hrect.
    apply (Hrect _ H). }
  split; [|split; [|split; [|split; [|split; [|split]]]]].
  - rewrite (add_to_excel_cases df w company_data name names Hcol Hname).
    unfold appended. rewrite Hw.
    destruct (existsb _ names) eqn:E; [|reflexivity].
    apply duplicate_test in E. contradiction.
  - reflexivity.
  - intros key v Hv. unfold cell_at.
    rewrite getitem_concat, getitem_of_record, Hv. simpl.
    destruct (getitem df key) as [s|] eqn:E; simpl.
    + rewrite nth_error_app2; rewrite (Hlen _ _ E); [|lia].
      now rewrite Nat.sub_diag.
    + rewrite nth_error_app2; rewrite repeat_length; [|lia].
      now rewrite Nat.sub_diag.
  - intros key Hin Hv. unfold cell_at.
    rewrite getitem_concat, getitem_of_record, Hv. simpl.
    destruct (assoc_In_fst _ _ Hin) as [s E]. unfold getitem. rewrite E.
    rewrite nth_error_app2; rewrite (Hlen _ _ E); [|lia].
    now rewrite Nat.sub_diag.
  - intros key i v. unfold cell_at. rewrite getitem_concat.
    destruct (getitem df key) as [s|]; [|discriminate].
    intros H. rewrite nth_error_app1; [exact H|].
    apply nth_error_Some. congruence.
  - intros key i Hfresh Hkey Hi. unfold cell_at.
    rewrite getitem_concat, getitem_of_record.
    assert (E : getitem df key = None).
    { apply assoc_None. now apply mem_false. }
    clear Hfresh. rewrite E. destruct (assoc_In_fst _ _ Hkey) as [v Hv].
    unfold dict_get. rewrite Hv. simpl.
    rewrite nth_error_app1 by now rewrite repeat_length.
    now apply nth_error_repeat.
  - rewrite columns_concat. unfold columns at 3. simpl.
    now rewrite map_map.
Qed.

(** C10, as the code has it: the duplicate test is equality of texts,
    character by character, so a difference in letter case or in a blank
    is a difference; on a sheet with the Company Name column, and where
    openpyxl refuses no text of the table to be written, every text in
    that column differs from the Company Name of the dictionary exactly
    when [add_to_excel] returns [True] and writes the table [appended],
    whose Company Name column is the old one followed by the new name. *)
Theorem add_to_excel_exact_match
  (df : DataFrame) (w : bool) (company_data : dict) (name : string)
  (names : Series) :
  getitem df "Company Name" = Some names ->
  dict_get company_data "Company Name" = Some (Some name) ->
  writable (appended df company_data) = true ->
  getitem (appended df company_data) "Company Name"
  = Some (names ++ [Some name]) /\
  ((forall s, In (Some s) names -> s <> name) <->
   add_to_excel company_data (Workbook df w)
   = (true, Workbook (reread (appended df company_data)) false)).
Proof.
  intros Hcol Hname Hw. split.
  - unfold appended. now rewrite getitem_concat, Hcol, getitem_of_record, Hname.
  - rewrite (add_to_excel_cases df w company_data name names Hcol Hname), Hw.
    destruct (existsb _ names) eqn:E.
    + apply duplicate_test in E. split; [|discriminate].
      intros H. exfalso. now apply (H name).
    + split; [reflexivity|]. intros _ s Hs ->.
      apply duplicate_test in Hs. congruence.
Qed.

End Store.

Lemma add_to_excel_duplicate_witness :
  @add_to_excel plain_excel acme_record (Workbook notes_sheet true)
  = (false, Workbook notes_sheet true).
Proof.
  apply (@add_to_excel_duplicate plain_excel notes_sheet true acme_record
           "Acme" [Some "Acme"]); [reflexivity | reflexivity | now left].
Defined.

Lemma add_to_excel_inserted_witness :
  @add_to_excel plain_excel (record_named "Initech") (Workbook notes_sheet true)
  = (true, Workbook (appended notes_sheet (record_named "Initech")) false) /\
  nrows (appended notes_sheet (record_named "Initech")) = 2 /\
  cell_at (appended notes_sheet (record_named "Initech")) "Company Name" 1
  = Some (Some "Initech") /\
  cell_at (appended notes_sheet (record_named "Initech")) "Company Email" 1
  = Some None.
Proof.
  destruct (@add_to_excel_inserted plain_excel notes_sheet true
              (record_named "Initech") "Initech" [Some "Acme"])
    as (H1 & H2 & H3 & _).
  - repeat constructor.
  - reflexivity.
  - reflexivity.
  - intros [H|[]]. discriminate H.
  - reflexivity.
  - split; [exact H1|]. split; [exact H2|].
    split; apply H3; reflexivity.
Defined.

(** C4 as it is worded fails on [bell_record]: the name is new on
    [notes_sheet], the phone number holds a character openpyxl refuses,
    the write raises and [add_to_excel] returns [False], whatever the
    library does otherwise. *)
Lemma add_to_excel_inserted_counterexample :
  ~ (forall (xl : Excel) df w company_data name names,
       rectangular df ->
       getitem df "Company Name" = Some names ->
       dict_get company_data "Company Name" = Some (Some name) ->
       ~ In (Some name) names ->
       fst (add_to_excel company_data (Workbook df w)) = true) /\
  (forall xl : Excel,
     fst (@add_to_excel xl bell_record (Workbook notes_sheet true)) = false).
Proof.
  split.
  - intros H.
    specialize (H plain_excel notes_sheet true bell_record "Initech"
                  [Some "Acme"]).
    assert (E : fst (@add_to_excel plain_excel bell_record
                       (Workbook notes_sheet true)) = true).
    { apply H; [repeat constructor | reflexivity | reflexivity |].
      intros [K|[]]. discriminate K. }
    vm_compute in E. discriminate E.
  - intros xl. reflexivity.
Qed.

Lemma add_to_excel_exact_match_witness :
  (forall s, In (Some s) [Some "Acme"] -> s <> "acme") <->
  @add_to_excel plain_excel (record_named "acme") (Workbook notes_sheet false)
  = (true, Workbook (appended notes_sheet (record_named "acme")) false).
Proof.
  exact (proj2 (@add_to_excel_exact_match plain_excel notes_sheet false
                  (record_named "acme") "acme" [Some "Acme"]
                  eq_refl eq_refl eq_refl)).
Defined.

(** C10 as it is worded fails on the name of [notes_sheet] followed by
    the bell: it differs from every name of the sheet, and it is not
    inserted: the write raises and [add_to_excel] returns [False], whatever
    the library does otherwise. *)
Lemma add_to_excel_exact_match_counterexample :
  ~ (forall (xl : Excel) df w company_data name names,
       getitem df "Company Name" = Some names ->
       dict_get company_data "Company Name" = Some (Some name) ->
       (forall s, In (Some s) names -> s <> name) ->
       fst (add_to_excel company_data (Workbook df w)) = true) /\
  (forall xl : Excel,
     fst (@add_to_excel xl (record_named ("Acme" ++ BEL)%string)
            (Workbook notes_sheet true)) = false).
Proof.
  split.
  - intros H.
    specialize (H plain_excel notes_sheet true
                  (record_named ("Acme" ++ BEL)%string)
                  ("Acme" ++ BEL)%string [Some "Acme"]).
    assert (E : fst (@add_to_excel plain_excel
                       (record_named ("Acme" ++ BEL)%string)
                       (Workbook notes_sheet true)) = true).
    { apply H; [reflexivity | reflexivity |].
      intros s [K|[]]. injection K as <-. discriminate. }
    vm_compute in E. discriminate E.
  - intros xl. reflexivity.
Qed.

(** The scenario of the specification: the text of Acme is parsed into the
    six fields, the optional ones absent, and added to a file that did not
    exist it gives one row. *)
Example acme_scenario :
  parse_text acme_text = Some acme_record /\
  @add_to_excel plain_excel acme_record (ensure_columns_exist Absent)
  = (true, Workbook acme_sheet false).
Proof. split; reflexivity. Qed.

(** A name in another letter case, or with a blank after it, is a new
    company; the same name is not. *)
Example add_to_excel_letter_case :
  fst (@add_to_excel plain_excel (record_named "acme")
         (Workbook notes_sheet false)) = true
  /\ fst (@add_to_excel plain_excel (record_named "Acme ")
            (Workbook notes_sheet false)) = true
  /\ fst (@add_to_excel plain_excel (record_named "Acme")
            (Workbook notes_sheet false)) = false.
Proof. repeat split. Qed.

Lemma ensure_columns_exist_Workbook (df : DataFrame) (w : bool) :
  ensure_columns_exist (Workbook df w) =
  Workbook
    (mkDataFrame (nrows df)
       (data df
        ++ map (fun c => (c, repeat None (nrows df)))
               (filter (fun c => negb (mem c (columns df))) required_columns)))
    false.
Proof.
  unfold ensure_columns_exist. cbn [os_path_exists read_excel].
  now rewrite (add_missing_spec _ NoDup_required_columns).
Qed.

(** C6: on a workbook [ensure_columns_exist] keeps the rows, keeps every
    column that is there with every cell of it, and puts after them the
    required columns that are missing, each filled with null for every
    row; nothing else is in the table.  Where there is no file it writes a
    table without rows whose columns are the nine required ones. *)
Theorem ensure_columns_exist_frame :
  (forall df w,
     exists df',
       ensure_columns_exist (Workbook df w) = Workbook df' false /\
       nrows df' = nrows df /\
       data df' =
         data df
         ++ map (fun c => (c, repeat None (nrows df)))
                (filter (fun c => negb (mem c (columns df))) required_columns) /\
       (forall c s, getitem df c = Some s -> getitem df' c = Some s) /\
       (forall c, In c required_columns -> ~ In c (columns df) ->
                  getitem df' c = Some (repeat None (nrows df))) /\
       (forall c, In c (columns df') ->
                  In c (columns df) \/ In c required_columns)) /\
  ensure_columns_exist Absent
  = Workbook (mkDataFrame 0 (map (fun c => (c, [])) required_columns)) false.
Proof.
  split; [|reflexivity].
  intros df w. eexists. split; [apply ensure_columns_exist_Workbook|].
  cbn [nrows data]. split; [reflexivity|]. split; [reflexivity|].
  unfold getitem, columns. cbn [nrows data].
  set (missing := filter _ required_columns).
  assert (Hmissing : forall c, In c missing <->
                               In c required_columns /\ ~ In c (map fst (data df))).
  { intros c. unfold missing. rewrite filter_In, <- mem_false.
    now destruct (mem c (map fst (data df))). }
  clearbody missing. split; [|split].
  - intros c s H. now rewrite assoc_app, H.
  - intros c Hreq Hnew. rewrite assoc_app.
    assert (E : assoc (data df) c = None).
    { apply assoc_None. now apply mem_false. }
    rewrite E. apply assoc_const, Hmissing. now split.
  - intros c. rewrite map_app, map_map. cbn [fst].
    rewrite map_id, in_app_iff, Hmissing. tauto.
Qed.

(** C7: [ensure_columns_exist] is idempotent: run twice it leaves the
    file that one run leaves, whatever was at the path. *)
Theorem ensure_columns_exist_idempotent (f : file) :
  ensure_columns_exist (ensure_columns_exist f) = ensure_columns_exist f.
Proof.
  destruct f as [| |df w]; [reflexivity | reflexivity |].
  unfold ensure_columns_exist, to_excel. cbn [os_path_exists read_excel].
  f_equal.
  apply add_missing_fixed; [exact NoDup_required_columns|].
  intros c Hc. now apply add_missing_has; [exact NoDup_required_columns|].
Qed.

(** C8, as the code has it: the header that [ensure_columns_exist] leaves
    on a workbook is the header that was there, in its order, followed by
    the missing required columns in the order Company Name, Company Phone,
    Company Email, Industry, Company Type, Import/Export Activities,
    Company Country, Company Website, Operations; where there was no file
    the header is the nine required columns in that order. *)
Theorem ensure_columns_exist_header :
  (forall df w,
     exists df',
       ensure_columns_exist (Workbook df w) = Workbook df' false /\
       columns df' =
         columns df
         ++ filter (fun c => negb (mem c (columns df))) required_columns) /\
  (exists df',
     ensure_columns_exist Absent = Workbook df' false /\
     columns df' =
       [ "Company Name"; "Company Phone"; "Company Email";
         "Industry"; "Company Type"; "Import/Export Activities";
         "Company Country"; "Company Website"; "Operations" ]).
Proof.
  split.
  - intros df w. eexists. split; [apply ensure_columns_exist_Workbook|].
    unfold columns. cbn [nrows data]. rewrite map_app, map_map. cbn [fst].
    now rewrite map_id.
  - eexists. split; reflexivity.
Qed.

(** C8 as it is worded fails on [notes_sheet]: its own columns stay in
    front and the required columns do not start the header. *)
Lemma ensure_columns_exist_header_counterexample :
  ~ (forall f df w,
       ensure_columns_exist f = Workbook df w ->
       exists rest, columns df = required_columns ++ rest).
Proof.
  intros H.
  destruct (H (Workbook notes_sheet false) _ _ eq_refl) as [rest E].
  vm_compute in E. discriminate E.
Qed.

End SheetStore.

(** * Further properties of the extractor *)

Module ExtractorMore.
Import Str Re StrFacts ReFacts Extractor.
Local Open Scope string_scope.

Lemma lstrip_head (s : string) :
  lstrip s = "" \/ exists c r, lstrip s = String c r /\ is_space c = false.
Proof.
  induction s as [|c s IH]; simpl; [now left|].
  destruct (is_space c) eqn:E; [exact IH|]. right. now exists c, s.
Qed.

Lemma rstrip_idem (s : string) : rstrip (rstrip s) = rstrip s.
Proof.
  induction s as [|c s IH]; simpl; [reflexivity|].
  destruct (rstrip s) as [|x r] eqn:E.
  - destruct (is_space c) eqn:Ec; simpl; [reflexivity | now rewrite Ec].
  - cbn [rstrip] in IH |- *. now rewrite IH.
Qed.

Lemma lstrip_rstrip_lstrip (s : string) :
  lstrip (rstrip (lstrip s)) = rstrip (lstrip s).
Proof.
  destruct (lstrip_head s) as [->|(c & r & -> & Hc)]; [reflexivity|].
  cbn [rstrip]. destruct (rstrip r); [rewrite Hc|]; simpl; now rewrite Hc.
Qed.

(** [strip] leaves nothing to strip. *)
Lemma strip_clean (s : string) :
  lstrip (strip s) = strip s /\ rstrip (strip s) = strip s.
Proof.
  unfold strip. split; [apply lstrip_rstrip_lstrip | apply rstrip_idem].
Qed.

Lemma strip_idem (s : string) : strip (strip s) = strip s.
Proof.
  unfold strip at 1. destruct (strip_clean s) as [-> ->]. reflexivity.
Qed.

Lemma no_newline_lstrip (s : string) :
  no_newline s = true -> no_newline (lstrip s) = true.
Proof.
  induction s as [|c s IH]; simpl; [reflexivity|].
  intros H. apply andb_prop in H. destruct H as [Hc Hs].
  destruct (is_space c); [now apply IH|]. simpl. now rewrite Hc, Hs.
Qed.

Lemma no_newline_rstrip (s : string) :
  no_newline s = true -> no_newline (rstrip s) = true.
Proof.
  induction s as [|c s IH]; simpl; [reflexivity|].
  intros H. apply andb_prop in H. destruct H as [Hc Hs].
  specialize (IH Hs). destruct (rstrip s) as [|x r].
  - destruct (is_space c); simpl; [reflexivity | now rewrite Hc].
  - cbn [no_newline] in IH |- *. now rewrite Hc, IH.
Qed.

Lemma no_newline_strip (s : string) :
  no_newline s = true -> no_newline (strip s) = true.
Proof. intros H. now apply no_newline_rstrip, no_newline_lstrip. Qed.

(** Every text in the dictionary of [parse_text] is the stripped group 1
    of a search, made without [re.DOTALL] unless the key is Operations. *)
Lemma parse_text_field_origin (text : string) (r : dict) (key v : string) :
  parse_text text = Some r ->
  dict_get r key = Some (Some v) ->
  exists lit dotall g,
    search lit dotall text = Some g /\ v = strip g /\
    (key <> "Operations" -> dotall = false).
Proof.
  intros P. apply parse_text_Some in P.
  destruct P as (n & p & i & t & c & o & Hn & Hp & Hi & Ht & Hc & Ho & ->).
  assert (Opt : forall lit, extract_optional_field lit text = Some v ->
                  exists lit dotall g,
                    search lit dotall text = Some g /\ v = strip g /\
                    (key <> "Operations" -> dotall = false)).
  { intros lit. unfold extract_optional_field.
    destruct (search lit false text) as [g|] eqn:E; [|discriminate].
    intros [= <-]. now exists lit, false, g. }
  unfold dict_get. cbn [assoc].
  destruct (String.eqb_spec "Company Name" key) as [<-|_];
    [intros [= <-]; now exists "Company Name: ", false, n|].
  destruct (String.eqb_spec "Company Phone" key) as [<-|_];
    [intros [= <-]; now exists "Company Phone: ", false, p|].
  destruct (String.eqb_spec "Company Email" key) as [<-|_];
    [intros [= E]; now apply Opt in E|].
  destruct (String.eqb_spec "Industry" key) as [<-|_];
    [intros [= <-]; now exists "Industry: ", false, i|].
  destruct (String.eqb_spec "Company Type" key) as [<-|_];
    [intros [= <-]; now exists "Company Type: ", false, t|].
  destruct (String.eqb_spec "Import/Export Activities" key) as [<-|_];
    [intros [= E]; now apply Opt in E|].
  destruct (String.eqb_spec "Company Country" key) as [<-|_];
    [intros [= <-]; now exists "Company Country: ", false, c|].
  destruct (String.eqb_spec "Company Website" key) as [<-|_];
    [intros [= E]; now apply Opt in E|].
  destruct (String.eqb_spec "Operations" key) as [<-|_]; [|discriminate].
  intros [= <-]. exists "Company Operations: ", true, o.
  split; [exact Ho|]. split; [reflexivity|]. intros H. now contradiction H.
Qed.

(** X2: every text in the dictionary that [parse_text] returns, mandatory or
    optional, has no white space at its start and none at its end. *)
Theorem parse_text_values_stripped (text : string) (r : dict) (key v : string) :
  parse_text text = Some r ->
  dict_get r key = Some (Some v) ->
  lstrip v = v /\ rstrip v = v.
Proof.
  intros P D.
  destruct (parse_text_field_origin text r key v P D) as (lit & d & g & _ & -> & _).
  apply strip_clean.
Qed.

Lemma parse_text_values_stripped_witness :
  lstrip "Acme" = "Acme" /\ rstrip "Acme" = "Acme".
Proof.
  exact (parse_text_values_stripped padded_text padded_record "Company Name"
           "Acme" eq_refl eq_refl).
Defined.

(** X3: every text in the dictionary but the one under Operations lies on one
    line: it holds no line feed. *)
Theorem parse_text_one_line (text : string) (r : dict) (key v : string) :
  parse_text text = Some r ->
  key <> "Operations" ->
  dict_get r key = Some (Some v) ->
  no_newline v = true.
Proof.
  intros P K D.
  destruct (parse_text_field_origin text r key v P D)
    as (lit & d & g & Hs & -> & Hd).
  rewrite (Hd K) in Hs. apply no_newline_strip.
  destruct (search_line _ _ _ Hs) as (pre & post & _ & _ & H & _). exact H.
Qed.

Lemma parse_text_one_line_witness : no_newline "555-1234" = true.
Proof.
  refine (parse_text_one_line padded_text padded_record "Company Phone"
            "555-1234" eq_refl _ eq_refl).
  discriminate.
Defined.

(** X1: [parse_text] returns a dictionary exactly when each of its six
    mandatory patterns matches somewhere in the text; the optional
    patterns have no say. *)
Theorem parse_text_success_iff (text : string) :
  (exists r, parse_text text = Some r) <->
  (forall lit dotall, In (lit, dotall) mandatory_patterns ->
     exists pre c rest, matches_at lit dotall text pre c rest).
Proof.
  split; [|apply parse_text_succeeds].
  intros [r P] lit dotall Hin.
  destruct (search lit dotall text) as [g|] eqn:E.
  - apply search_Some in E. destruct E as (pre & c & rest & Hm & _).
    now exists pre, c, rest.
  - rewrite (parse_text_None text lit dotall Hin E) in P. discriminate.
Qed.

(** X4: an optional label that does not occur in the text gives [None] under
    its key. *)
Theorem parse_text_optional_absent (text : string) (r : dict) (key label : string) :
  In (key, label) optional_fields ->
  ~ occurs label text ->
  parse_text text = Some r ->
  dict_get r key = Some None.
Proof.
  intros Hin Hno P. apply parse_text_Some in P.
  destruct P as (n & p & i & t & c & o & _ & _ & _ & _ & _ & _ & ->).
  assert (E : extract_optional_field (label ++ ": ") text = None).
  { unfold extract_optional_field.
    now rewrite (search_absent label text Hno ": " false). }
  simpl in Hin.
  destruct Hin as [[= <- <-]|[[= <- <-]|[[= <- <-]|[]]]];
    unfold dict_get; cbn [assoc String.eqb Ascii.eqb Bool.eqb];
    simpl in E; now rewrite E.
Qed.

Lemma parse_text_optional_absent_witness :
  dict_get padded_record "Company Website" = Some None.
Proof.
  refine (parse_text_optional_absent padded_text padded_record
            "Company Website" "Company Website" _ _ eq_refl).
  - simpl. tauto.
  - intros H. apply occursb_occurs in H. vm_compute in H. discriminate H.
Defined.

End ExtractorMore.

(** * Further properties of the sheet store *)

Module StoreMore.
Import TableFacts SheetStore.
Local Open Scope list_scope.

Lemma rectangular_of_record (d : dict) : rectangular (DataFrame_of_record d).
Proof.
  unfold rectangular, DataFrame_of_record. cbn [nrows data].
  apply Forall_map, Forall_forall. reflexivity.
Qed.

Lemma columns_of_record (d : dict) : columns (DataFrame_of_record d) = map fst d.
Proof.
  unfold columns, DataFrame_of_record. cbn [data]. rewrite map_map.
  reflexivity.
Qed.

Lemma rectangular_concat (a b : DataFrame) :
  rectangular a -> rectangular b -> rectangular (concat a b).
Proof.
  unfold rectangular. intros Ha Hb. rewrite Forall_forall in Ha, Hb.
  unfold concat. cbn [nrows data]. apply Forall_app. split.
  - apply Forall_map, Forall_forall. intros [k s] Hin. cbn [fst snd].
    pose proof (Ha _ Hin) as L. cbn [snd] in L.
    rewrite length_app, L. f_equal.
    destruct (assoc (data b) k) as [s'|] eqn:E.
    + apply assoc_Some_In in E. apply (Hb _ E).
    + apply repeat_length.
  - apply Forall_map, Forall_forall. intros [k s] Hin. cbn [fst snd].
    apply filter_In in Hin. destruct Hin as [Hin _].
    pose proof (Hb _ Hin) as L. cbn [snd] in L.
    now rewrite length_app, repeat_length, L.
Qed.

Lemma NoDup_columns_concat (a b : DataFrame) :
  NoDup (columns a) -> NoDup (columns b) -> NoDup (columns (concat a b)).
Proof.
  intros Ha Hb. rewrite columns_concat. apply NoDup_app.
  - exact Ha.
  - now apply NoDup_filter.
  - intros c Hc Hf. apply filter_In in Hf. destruct Hf as [_ Hf].
    apply mem_In in Hc. now rewrite Hc in Hf.
Qed.

Lemma well_formed_add_missing (df : DataFrame) :
  well_formed df -> well_formed (add_missing required_columns df).
Proof.
  intros [Hr Hn]. rewrite (add_missing_spec _ NoDup_required_columns).
  split.
  - unfold rectangular in *. cbn [nrows data]. apply Forall_app. split.
    + exact Hr.
    + apply Forall_map, Forall_forall. intros c _. apply repeat_length.
  - unfold columns in *. cbn [data]. rewrite map_app, map_map. cbn [fst].
    rewrite map_id. apply NoDup_app.
    + exact Hn.
    + apply NoDup_filter, NoDup_required_columns.
    + intros c Hc Hf. apply filter_In in Hf. destruct Hf as [_ Hf].
      apply mem_In in Hc. now rewrite Hc in Hf.
Qed.

(** The keys of a parsed record are the nine required columns, in order. *)
Lemma parse_text_keys (text : string) (r : dict) :
  parse_text text = Some r -> map fst r = required_columns.
Proof.
  intros P. apply Extractor.parse_text_Some in P.
  destruct P as (n & p & i & t & c & o & _ & _ & _ & _ & _ & _ & ->).
  reflexivity.
Qed.

Lemma parse_text_name (text : string) (r : dict) :
  parse_text text = Some r ->
  exists name, dict_get r "Company Name" = Some (Some name).
Proof.
  intros P. apply Extractor.parse_text_Some in P.
  destruct P as (n & p & i & t & c & o & _ & _ & _ & _ & _ & _ & ->).
  now exists (Str.strip n).
Qed.

Section Store.
Context {xl : Excel}.

(** The four ways [add_to_excel] can go: nothing written and [False];
    the table written and [True]; the write refused, the file torn and
    [False]. *)
Lemma add_to_excel_trace (company_data : dict) (f : file) :
  (add_to_excel company_data f = (false, f) /\
   (add_to_excel_dialogs company_data f = [] \/
    add_to_excel_dialogs company_data f = [adding_error_box])) \/
  (exists df w,
     f = Workbook df w /\
     getitem df "Company Name" <> None /\
     writable (appended df company_data) = true /\
     add_to_excel company_data f
     = (true, Workbook (reread (appended df company_data)) false) /\
     add_to_excel_dialogs company_data f = []) \/
  (exists df w,
     f = Workbook df w /\
     writable (appended df company_data) = false /\
     add_to_excel company_data f = (false, torn (appended df company_data)) /\
     add_to_excel_dialogs company_data f = [adding_error_box]).
Proof.
  unfold add_to_excel, add_to_excel_dialogs, df_to_excel.
  destruct f as [| |df w]; cbn [read_excel]; try (left; now auto).
  destruct (getitem df "Company Name") as [names|] eqn:Ecol;
    [|left; now auto].
  destruct (dict_get company_data "Company Name") as [name|];
    [|left; now auto].
  destruct (existsb _ names); [left; now auto|].
  destruct (writable (appended df company_data)) eqn:Ew;
    cbn [fst snd adjust_excel_format].
  - right. left. exists df, w. rewrite Ecol.
    repeat split; [discriminate | exact Ew].
  - right. right. exists df, w. repeat split; assumption.
Qed.

(** X5: what [add_to_excel] returns, leaves and reports.  With [True]
    the file was a workbook with the Company Name column, openpyxl took
    every text, the file is the workbook written from the table
    [appended], and the handler is silent.  With [False] the file is what
    it was (a duplicate, a file that cannot be read, a sheet without the
    Company Name column, a dictionary without that key), unless the write
    was refused: then the file is torn and the handler shows its box. *)
Theorem add_to_excel_outcome (company_data : dict) (f : file) :
  (fst (add_to_excel company_data f) = true ->
   exists df w,
     f = Workbook df w /\
     getitem df "Company Name" <> None /\
     writable (appended df company_data) = true /\
     snd (add_to_excel company_data f)
     = Workbook (reread (appended df company_data)) false /\
     add_to_excel_dialogs company_data f = []) /\
  (fst (add_to_excel company_data f) = false ->
   (snd (add_to_excel company_data f) = f /\
    (add_to_excel_dialogs company_data f = [] \/
     add_to_excel_dialogs company_data f = [adding_error_box])) \/
   (exists df w,
      f = Workbook df w /\
      writable (appended df company_data) = false /\
      snd (add_to_excel company_data f) = torn (appended df company_data) /\
      add_to_excel_dialogs company_data f = [adding_error_box])).
Proof.
  destruct (add_to_excel_trace company_data f)
    as [[E D]|[(df & w & Hf & Hc & Hw & E & D)|(df & w & Hf & Hw & E & D)]];
    rewrite E; cbn [fst snd]; split; intros H; try discriminate H.
  - now left.
  - exists df, w. now repeat split.
  - right. exists df, w. now repeat split.
Qed.

(** X10: the first record of a new file: on the workbook that
    [ensure_columns_exist] writes where there was no file, [add_to_excel]
    of a parsed record of which openpyxl refuses no text returns [True] and
    writes the table of exactly one row, the record. *)
Theorem add_to_excel_first_record (text : string) (r : dict) :
  parse_text text = Some r ->
  writable (DataFrame_of_record r) = true ->
  add_to_excel r (ensure_columns_exist Absent)
  = (true, Workbook (reread (DataFrame_of_record r)) false).
Proof.
  intros P Hw. destruct (parse_text_name _ _ P) as [name Hname].
  assert (E : appended (DataFrame_of_columns required_columns) r
              = DataFrame_of_record r).
  { apply Extractor.parse_text_Some in P.
    destruct P as (n & p & i & t & c & o & _ & _ & _ & _ & _ & _ & ->).
    reflexivity. }
  change (ensure_columns_exist Absent)
    with (Workbook (DataFrame_of_columns required_columns) false).
  rewrite (add_to_excel_cases (DataFrame_of_columns required_columns) false r
             name [] eq_refl Hname).
  cbn [existsb]. now rewrite E, Hw.
Qed.

(** On a workbook that has the Company Name column, the handler of
    [add_to_excel] stays silent for a parsed record of which openpyxl
    refuses no text. *)
Lemma add_to_excel_silent (text : string) (r : dict) (df : DataFrame) (w : bool) :
  parse_text text = Some r ->
  In "Company Name" (columns df) ->
  writable (appended df r) = true ->
  add_to_excel_dialogs r (Workbook df w) = [].
Proof.
  intros P Hin Hw. destruct (parse_text_name _ _ P) as [name Hname].
  destruct (assoc_In_fst _ _ Hin) as [names E].
  unfold add_to_excel_dialogs, df_to_excel. cbn [read_excel].
  unfold getitem. rewrite E, Hname, Hw.
  now destruct (existsb _ names).
Qed.

End Store.

Lemma add_to_excel_first_record_witness :
  @add_to_excel plain_excel padded_record (ensure_columns_exist Absent)
  = (true, Workbook (DataFrame_of_record padded_record) false).
Proof.
  exact (@add_to_excel_first_record plain_excel padded_text padded_record
           eq_refl eq_refl).
Defined.

(** X7: [ensure_columns_exist] keeps a table well formed: afterwards every
    column still has one cell per row and no column name occurs twice. *)
Theorem ensure_columns_exist_well_formed (f : file) :
  file_well_formed f -> file_well_formed (ensure_columns_exist f).
Proof.
  destruct f as [| |df w]; intros H.
  - unfold ensure_columns_exist. cbn [os_path_exists to_excel file_well_formed].
    split.
    + unfold rectangular, DataFrame_of_columns. cbn [nrows data].
      apply Forall_map, Forall_forall. reflexivity.
    + unfold columns, DataFrame_of_columns. cbn [data]. rewrite map_map.
      cbn [fst]. rewrite map_id. apply NoDup_required_columns.
  - exact I.
  - unfold ensure_columns_exist.
    cbn [os_path_exists read_excel to_excel file_well_formed] in *.
    now apply well_formed_add_missing.
Qed.

Lemma ensure_columns_exist_well_formed_witness :
  file_well_formed (ensure_columns_exist (Workbook notes_sheet true)).
Proof.
  apply (ensure_columns_exist_well_formed (Workbook notes_sheet true)).
  split.
  - repeat constructor.
  - repeat constructor; simpl; intuition discriminate.
Defined.

(** X8: the table [add_to_excel] builds and writes is well formed where
    the sheet is, for a dictionary without a repeated key: every column
    has one cell per row and no column name occurs twice. *)
Theorem add_to_excel_well_formed (company_data : dict) (df : DataFrame) :
  NoDup (map fst company_data) ->
  well_formed df ->
  well_formed (appended df company_data).
Proof.
  intros Hkeys [Hr Hn]. unfold appended. split.
  - apply rectangular_concat; [exact Hr | apply rectangular_of_record].
  - apply NoDup_columns_concat; [exact Hn|].
    now rewrite columns_of_record.
Qed.

Lemma add_to_excel_well_formed_witness :
  well_formed (appended notes_sheet (record_named "Initech")).
Proof.
  apply (add_to_excel_well_formed (record_named "Initech") notes_sheet).
  - repeat constructor; simpl; intuition discriminate.
  - split.
    + repeat constructor.
    + repeat constructor; simpl; intuition discriminate.
Defined.



End StoreMore.

(** * Properties of the main window *)

Module Window.
Import Str StrFacts TableFacts ExtractorMore StoreMore.
Local Open Scope list_scope.

Lemma selected_path_Some (w : MainWindow) (path : string) :
  selected_path w = Some path ->
  selected_excel_file w = Some path /\ truthy path = true.
Proof.
  unfold selected_path. destruct (selected_excel_file w) as [p|]; [|discriminate].
  destruct (truthy p) eqn:E; [|discriminate]. intros [= <-]. now split.
Qed.

Lemma write_same (d : disk) (path : string) (f : file) : write d path f path = f.
Proof. unfold write. now rewrite String.eqb_refl. Qed.

Lemma write_other (d : disk) (path p : string) (f : file) :
  p <> path -> write d path f p = d p.
Proof. unfold write. intros H. apply String.eqb_neq in H. now rewrite H. Qed.

Lemma Workbook_table (df1 df2 : DataFrame) (w1 w2 : bool) :
  Workbook df1 w1 = Workbook df2 w2 -> df1 = df2.
Proof. intros H. now injection H. Qed.

Lemma parse_text_empty : parse_text "" = None.
Proof. reflexivity. Qed.

Section Handlers.
Context {xl : Excel}.

(** What [process_input] does once a file is selected and the stripped
    text parses. *)
Lemma process_input_parsed
  (w : MainWindow) (text path : string) (r : dict) (d : disk) :
  selected_path w = Some path ->
  parse_text (strip text) = Some r ->
  process_input w text d
  = (add_to_excel_dialogs r (d path)
     ++ [if fst (add_to_excel r (d path)) then success_box else duplicate_box],
     write d path (snd (add_to_excel r (d path)))).
Proof.
  intros Hsel P. unfold process_input. rewrite Hsel. cbv zeta.
  assert (T : truthy (strip text) = true).
  { unfold truthy. destruct (String.eqb_spec (strip text) ""%string) as [E|_];
      [|reflexivity].
    rewrite E, parse_text_empty in P. discriminate. }
  rewrite T, P. cbn [negb].
  destruct r as [|kv r]; [|reflexivity].
  apply parse_text_keys in P. discriminate.
Qed.

(** [process_input] on a selected file that cannot be read. *)
Lemma process_input_read_fails
  (w : MainWindow) (text path : string) (r : dict) (d : disk) :
  selected_path w = Some path ->
  read_excel (d path) = None ->
  parse_text (strip text) = Some r ->
  fst (process_input w text d) = [adding_error_box; duplicate_box] /\
  forall p, snd (process_input w text d) p = d p.
Proof.
  intros Hsel Hread P.
  rewrite (process_input_parsed w text path r d Hsel P).
  unfold add_to_excel_dialogs, add_to_excel. rewrite Hread. cbn [fst snd].
  split; [reflexivity|]. intros p. unfold write.
  now destruct (String.eqb_spec p path) as [->|_].
Qed.

(** X11: [process_input] changes no file but the selected one; it changes
    nothing at all unless it shows the Success box or the error box of
    [add_to_excel]; and when it shows the Success box, the selected file
    was a workbook, openpyxl took every text, and the file is now the
    workbook written from the table [appended], which has one row more. *)
Theorem process_input_writes (w : MainWindow) (text : string) (d : disk) :
  (forall p, selected_excel_file w <> Some p ->
             snd (process_input w text d) p = d p) /\
  (~ In success_box (fst (process_input w text d)) ->
   ~ In adding_error_box (fst (process_input w text d)) ->
   forall p, snd (process_input w text d) p = d p) /\
  (In success_box (fst (process_input w text d)) ->
   exists path df wr r,
     selected_excel_file w = Some path /\
     d path = Workbook df wr /\
     parse_text (strip text) = Some r /\
     writable (appended df r) = true /\
     snd (process_input w text d) path
     = Workbook (reread (appended df r)) false /\
     nrows (appended df r) = nrows df + 1).
Proof.
  destruct (selected_path w) as [path|] eqn:Hsel.
  - destruct (parse_text (strip text)) as [r|] eqn:P.
    + rewrite (process_input_parsed w text path r d Hsel P). cbn [fst snd].
      destruct (selected_path_Some _ _ Hsel) as [Hw _].
      split; [intros p Hp; apply write_other; congruence|].
      destruct (add_to_excel_trace r (d path))
        as [[E D]|[(df & wr & Hf & Hc & Hwr & E & D)
                  |(df & wr & Hf & Hwr & E & D)]];
        rewrite E; cbn [fst snd]; split.
      * intros _ _ p. unfold write.
        now destruct (String.eqb_spec p path) as [->|_].
      * intros Hin. exfalso. apply in_app_or in Hin.
        destruct Hin as [Hin|[Hin|[]]]; [|discriminate Hin].
        destruct D as [D|D]; rewrite D in Hin; simpl in Hin;
          intuition discriminate.
      * intros Hno _. exfalso. apply Hno, in_or_app. right. now left.
      * intros _. exists path, df, wr, r. rewrite write_same.
        now repeat split.
      * intros _ Hno. exfalso. apply Hno. rewrite D. now left.
      * intros Hin. exfalso. rewrite D in Hin. simpl in Hin.
        intuition discriminate.
    + unfold process_input. rewrite Hsel. cbv zeta. rewrite P.
      destruct (negb (truthy (strip text))); cbn [fst snd];
        (split; [reflexivity | split; [reflexivity|]]);
        simpl; intuition discriminate.
  - unfold process_input. rewrite Hsel. cbn [fst snd].
    split; [reflexivity | split; [reflexivity|]].
    simpl; intuition discriminate.
Qed.

(** X16: where the selected file is a workbook with the Company Name
    column, the text parses into a record with a new name, and openpyxl
    refuses a text of the table to be written, [process_input] shows the
    error box of [add_to_excel] and then the box that says the company
    already exists, and the selected file is left torn by the write. *)
Theorem process_input_refused_write
  (w : MainWindow) (text path : string) (r : dict) (d : disk)
  (df : DataFrame) (wr : bool) (names : Series) (name : string) :
  selected_path w = Some path ->
  d path = Workbook df wr ->
  parse_text (strip text) = Some r ->
  getitem df "Company Name" = Some names ->
  dict_get r "Company Name" = Some (Some name) ->
  ~ In (Some name) names ->
  writable (appended df r) = false ->
  fst (process_input w text d) = [adding_error_box; duplicate_box] /\
  snd (process_input w text d) path = torn (appended df r).
Proof.
  intros Hsel Hfile P Hcol Hname Hnew Hw.
  rewrite (process_input_parsed w text path r d Hsel P). cbn [fst snd].
  rewrite write_same, Hfile.
  rewrite (SheetStore.add_to_excel_cases df wr r name names Hcol Hname), Hw.
  unfold add_to_excel_dialogs, df_to_excel. cbn [read_excel].
  rewrite Hcol, Hname, Hw.
  destruct (existsb _ names) eqn:E.
  - apply SheetStore.duplicate_test in E. contradiction.
  - split; reflexivity.
Qed.

(** X12: where the selected file cannot be read (it is missing or is no
    workbook) and the text parses, [process_input] shows the error box of
    [add_to_excel] and then the box that says the company already exists;
    no file changes. *)
Theorem process_input_unreadable
  (w : MainWindow) (text path : string) (r : dict) (d : disk) :
  selected_path w = Some path ->
  read_excel (d path) = None ->
  parse_text (strip text) = Some r ->
  fst (process_input w text d) = [adding_error_box; duplicate_box] /\
  forall p, snd (process_input w text d) p = d p.
Proof. apply process_input_read_fails. Qed.

(** X13: after [select_excel_file] with the name of a workbook or of a
    file that does not exist yet, the only box is File Selected and the
    sheet has the Company Name column; a [process_input] whose text parses
    into a record of which openpyxl refuses no text then shows one box:
    the box of the duplicate where the name is in that column, the Success
    box where it is not; the handler of [add_to_excel] has nothing to
    report. *)
Theorem select_then_process
  (file_name text : string) (r : dict) (w : MainWindow) (d : disk)
  (df : DataFrame) (wr : bool) :
  truthy file_name = true ->
  ensure_columns_exist (d file_name) = Workbook df wr ->
  parse_text (strip text) = Some r ->
  writable (appended df r) = true ->
  fst (fst (select_excel_file file_name w d)) = [file_selected_box] /\
  exists names name,
    getitem df "Company Name" = Some names /\
    dict_get r "Company Name" = Some (Some name) /\
    fst (process_input (snd (fst (select_excel_file file_name w d))) text
           (snd (select_excel_file file_name w d)))
    = [if existsb (fun c => cell_eqb c (Some name)) names
       then duplicate_box else success_box].
Proof.
  intros Hname Hfile P Hw. unfold select_excel_file. rewrite Hname.
  cbn [fst snd].
  assert (Hin : In "Company Name" (columns df) /\
                ensure_columns_exist_dialogs (d file_name) = []).
  { unfold ensure_columns_exist, ensure_columns_exist_dialogs in *.
    destruct (d file_name) as [| |df0 w0];
      cbn [os_path_exists read_excel to_excel] in *;
      [| discriminate Hfile |]; apply Workbook_table in Hfile; subst df.
    - split; [left; reflexivity | reflexivity].
    - split; [|reflexivity].
      apply add_missing_has; [apply NoDup_required_columns | left; reflexivity]. }
  destruct Hin as [Hin Hd]. split; [rewrite Hd; reflexivity|].
  destruct (assoc_In_fst _ _ Hin) as [names Hcol].
  destruct (parse_text_name _ _ P) as [name Hn].
  exists names, name. split; [exact Hcol|]. split; [exact Hn|].
  rewrite (process_input_parsed _ text file_name r).
  - rewrite write_same, Hfile. cbn [fst].
    rewrite (add_to_excel_silent _ r df wr P Hin Hw).
    rewrite (SheetStore.add_to_excel_cases df wr r name names Hcol Hn), Hw.
    destruct (existsb _ names); reflexivity.
  - unfold selected_path. cbn [selected_excel_file]. rewrite Hname.
    reflexivity.
  - exact P.
Qed.

(** X14: a file that exists but cannot be read is selected all the same:
    [select_excel_file] shows the error box of [ensure_columns_exist] and
    then File Selected, keeps the name as the selected file, and changes
    no file; a [process_input] after it, on a text that parses, ends in
    the error box and the duplicate box. *)
Theorem select_unreadable
  (file_name text : string) (r : dict) (w : MainWindow) (d : disk) :
  truthy file_name = true ->
  d file_name = Unreadable ->
  parse_text (strip text) = Some r ->
  fst (fst (select_excel_file file_name w d))
  = [checking_error_box; file_selected_box] /\
  selected_excel_file (snd (fst (select_excel_file file_name w d)))
  = Some file_name /\
  (forall p, snd (select_excel_file file_name w d) p = d p) /\
  fst (process_input (snd (fst (select_excel_file file_name w d))) text
         (snd (select_excel_file file_name w d)))
  = [adding_error_box; duplicate_box].
Proof.
  intros Hname Hfile P. unfold select_excel_file. rewrite Hname.
  cbn [fst snd]. rewrite Hfile.
  split; [reflexivity|]. split; [reflexivity|]. split.
  - intros p. unfold write. destruct (String.eqb_spec p file_name) as [->|_];
      [now rewrite Hfile | reflexivity].
  - apply (process_input_read_fails _ text file_name r); [| |exact P].
    + unfold selected_path. cbn [selected_excel_file]. now rewrite Hname.
    + now rewrite write_same.
Qed.

(** X15: white space around the pasted text does not count: [process_input]
    gives on a text what it gives on the stripped text, and a text of
    white space only is refused with one error box and no change. *)
Theorem process_input_strip (w : MainWindow) (text : string) (d : disk) :
  process_input w text d = process_input w (strip text) d /\
  (has_ink text = false ->
   exists box, process_input w text d = ([box], d) /\
               (box = no_file_box \/ box = no_text_box)).
Proof.
  split.
  - unfold process_input. now rewrite strip_idem.
  - intros H. apply strip_empty in H. unfold process_input. rewrite H.
    destruct (selected_path w).
    + exists no_text_box. split; [reflexivity | now right].
    + exists no_file_box. split; [reflexivity | now left].
Qed.


End Handlers.

Lemma process_input_unreadable_witness :
  fst (@process_input plain_excel (window_on "broken.xlsx") acme_text broken_disk)
  = [adding_error_box; duplicate_box].
Proof.
  exact (proj1 (@process_input_unreadable plain_excel (window_on "broken.xlsx")
                  acme_text "broken.xlsx" acme_record broken_disk
                  eq_refl eq_refl eq_refl)).
Defined.

Lemma process_input_refused_write_witness :
  parse_text bell_text = Some bell_record /\
  fst (@process_input plain_excel (window_on "book.xlsx") bell_text notes_disk)
  = [adding_error_box; duplicate_box].
Proof.
  split; [reflexivity|].
  refine (proj1 (@process_input_refused_write plain_excel
                   (window_on "book.xlsx") bell_text "book.xlsx" bell_record
                   notes_disk notes_sheet true [Some "Acme"] "Initech"
                   eq_refl eq_refl eq_refl eq_refl eq_refl _ eq_refl)).
  intros [H|[]]. discriminate H.
Defined.

Lemma select_then_process_witness :
  fst (@process_input plain_excel
         (snd (fst (select_excel_file "new.xlsx" MainWindow_init empty_disk)))
         acme_text
         (snd (select_excel_file "new.xlsx" MainWindow_init empty_disk)))
  = [success_box].
Proof.
  destruct (@select_then_process plain_excel "new.xlsx" acme_text acme_record
              MainWindow_init empty_disk
              (DataFrame_of_columns required_columns) false
              eq_refl eq_refl eq_refl eq_refl)
    as (_ & names & name & Hcol & _ & H).
  injection Hcol as <-. exact H.
Defined.

Lemma select_unreadable_witness :
  fst (fst (select_excel_file "broken.xlsx" MainWindow_init broken_disk))
  = [checking_error_box; file_selected_box].
Proof.
  exact (proj1 (@select_unreadable plain_excel "broken.xlsx" acme_text
                  acme_record MainWindow_init broken_disk
                  eq_refl eq_refl eq_refl)).
Defined.

End Window.
